(** * Signal engine: indicators, strategies and the weighted aggregator

    A shallow embedding of [signal_engine.py] (class [SignalEngine] with its
    result types) and the properties of its numeric pipeline:
    indicator computation, per-strategy classification, confidence-weighted
    aggregation and discretisation into a [SignalType].

    Number model.  The Python code computes on IEEE binary64 values held in
    numpy arrays.  The main development idealises them as real numbers [R]:
    rounding, overflow and NaN are outside of it.  The theorems are about
    which branch the code takes, which formula it evaluates and which
    closed bounds follow; equalities and bounds that only exact arithmetic
    gives are not stated.  Modules [Binary64] and [Binary64Engine] re-run
    parts of the code on the kernel's binary64 numbers, at the inputs where
    the two number models part.

    Exceptions.  The only exception the engine can raise is numpy's
    [IndexError], from a subscript that is out of range; it is modelled by
    the [result] monad below. *)

From Stdlib Require Import Reals Lra Lia ZArith.
From Stdlib Require Floats.
From stdpp Require Import base decidable option list strings gmap.

Local Open Scope R_scope.

(* ===================================================================== *)
(** ** Python values: exceptions, comparisons, arrays                     *)
(* ===================================================================== *)

(** [IndexError axis index size]: "index [index] is out of bounds for axis
    [axis] with size [size]". *)
Inductive exn : Type :=
  | IndexError (axis : nat) (index : Z) (size : nat).

Inductive result (A : Type) : Type :=
  | Ok (a : A)
  | Raise (e : exn).
Arguments Ok {A} a.
Arguments Raise {A} e.

#[global] Instance result_ret : MRet result := λ A a, Ok a.
#[global] Instance result_bind : MBind result := λ A B f m,
  match m with
  | Ok a => f a
  | Raise e => Raise e
  end.

Definition is_ok {A} (m : result A) : Prop := ∃ a, m = Ok a.

(** [m] returns a value, and the value satisfies [P]. *)
Definition returns {A} (m : result A) (P : A → Prop) : Prop :=
  ∃ a, m = Ok a ∧ P a.

(** Comparisons of floats, as decisions usable under [if decide (...)]. *)
#[global] Instance Rlt_decision : RelDecision Rlt := Rlt_dec.
#[global] Instance Rle_decision : RelDecision Rle := Rle_dec.
#[global] Instance Rgt_decision : RelDecision Rgt := Rgt_dec.
#[global] Instance Rge_decision : RelDecision Rge := Rge_dec.
#[global] Instance Req_decision : EqDecision R := Req_dec_T.

(** A two-dimensional numpy array of floats.  The shape is
    [(length rows, ncols)]; [ncols] is kept apart because an array with no
    row still has a second dimension. *)
Record ndarray2 : Type := mk_ndarray2 {
  ncols : nat;
  rows : list (list R)
}.

(** numpy arrays are rectangular.  Nothing below needs it (an entry
    missing from a row reads as 0), but the concrete arrays are. *)
Definition rectangular (a : ndarray2) : Prop :=
  Forall (λ r, length r = ncols a) (rows a).

(** [a[-1, j]] *)
Definition item_last (a : ndarray2) (j : nat) : result R :=
  match last (rows a) with
  | None => Raise (IndexError 0 (-1) 0)
  | Some r =>
      if decide (j < ncols a)%nat then Ok (nth j r 0)
      else Raise (IndexError 1 (Z.of_nat j) (ncols a))
  end.

(** [a[:, j]] *)
Definition column (a : ndarray2) (j : nat) : result (list R) :=
  if decide (j < ncols a)%nat then Ok (map (λ r, nth j r 0) (rows a))
  else Raise (IndexError 1 (Z.of_nat j) (ncols a)).

(** One-dimensional subscripts and slices: [v[-1]], [v[-2]], [v[-p:]] (which
    is the whole of [v] when [p = 0]), [v[:-1]], [v[-20:-1]]. *)
Definition item_m1 (v : list R) : result R :=
  match last v with
  | Some x => Ok x
  | None => Raise (IndexError 0 (-1) 0)
  end.

Definition item_m2 (v : list R) : result R :=
  if decide (2 <= length v)%nat then Ok (nth (length v - 2) v 0)
  else Raise (IndexError 0 (-2) (length v)).

Definition slice_last (p : nat) (v : list R) : list R :=
  match p with
  | O => v
  | _ => drop (length v - p) v
  end.

Definition slice_but_last (v : list R) : list R := take (length v - 1) v.

Definition slice_m20_m1 (v : list R) : list R :=
  drop (length v - 20) (slice_but_last v).

(** [np.sum], [np.mean], [np.std] (population standard deviation),
    [np.diff].  The engine takes the mean of a slice only where the slice
    has an element (numpy's mean of an empty array is NaN). *)
Definition np_sum (v : list R) : R := foldr Rplus 0 v.

Definition np_mean (v : list R) : R := np_sum v / INR (length v).

Definition np_std (v : list R) : R :=
  sqrt (np_mean (map (λ x, (x - np_mean v) * (x - np_mean v)) v)).

Definition np_diff (v : list R) : list R :=
  zip_with (λ a b, b - a) v (drop 1 v).

(* ===================================================================== *)
(** ** Result types                                                       *)
(* ===================================================================== *)

Inductive SignalType : Type :=
  | STRONG_LONG
  | LONG
  | NEUTRAL
  | SHORT
  | STRONG_SHORT.

#[global] Instance SignalType_eq_dec : EqDecision SignalType.
Proof. solve_decision. Defined.

(** [SignalType.value] *)
Definition value (s : SignalType) : Z :=
  match s with
  | STRONG_LONG => 2
  | LONG => 1
  | NEUTRAL => 0
  | SHORT => -1
  | STRONG_SHORT => -2
  end.

Record StrategySignal : Type := mk_StrategySignal {
  name : string;
  signal : SignalType;
  confidence : R;
  indicators : gmap string R;
  reason : string
}.

(** [timestamp] is the reading of [datetime.now()], here seconds as an
    integer. *)
Record CompositeSignal : Type := mk_CompositeSignal {
  cs_symbol : string;
  cs_price : R;
  cs_signal : SignalType;
  cs_confidence : R;
  cs_strategies : list StrategySignal;
  cs_timestamp : Z
}.

(* ===================================================================== *)
(** ** The engine and its indicators                                      *)
(* ===================================================================== *)

Record SignalEngine : Type := mk_SignalEngine {
  weights : gmap string R;
  default_weight : R
}.

(** [SignalEngine.__init__]: [self.weights = weights or {}]. *)
Definition SignalEngine_init (w : option (gmap string R)) : SignalEngine :=
  {| weights := default ∅ w; default_weight := 1 |}.

Definition calculate_rsi (closes : list R) (period : nat) : R :=
  if decide (length closes < period + 1)%nat then 50
  else
    let deltas := np_diff closes in
    let gains := map (λ d, if decide (d > 0) then d else 0) deltas in
    let losses := map (λ d, if decide (d < 0) then - d else 0) deltas in
    let avg_gain := np_mean (slice_last period gains) in
    let avg_loss := np_mean (slice_last period losses) in
    if decide (avg_loss = 0) then 100
    else
      let rs := avg_gain / avg_loss in
      100 - 100 / (1 + rs).

Definition calculate_bollinger_bands (closes : list R) (period : nat)
    (std : R) : result (R * R * R) :=
  if decide (length closes < period)%nat then
    x ← item_m1 closes; mret (x, x, x)
  else
    let sma := np_mean (slice_last period closes) in
    let std_dev := np_std (slice_last period closes) in
    let upper := sma + std * std_dev in
    let lower := sma - std * std_dev in
    mret (upper, sma, lower).

Definition calculate_ema (closes : list R) (period : nat) : result R :=
  if decide (length closes < period)%nat then item_m1 closes
  else
    let multiplier := 2 / (INR period + 1) in
    match closes with
    | [] => Raise (IndexError 0 0 0)
    | c0 :: rest =>
        mret (foldl (λ ema price, price * multiplier + ema * (1 - multiplier))
                    c0 rest)
    end.

Definition calculate_macd (closes : list R) : result (R * R * R) :=
  ema12 ← calculate_ema closes 12;
  ema26 ← calculate_ema closes 26;
  let macd_line := ema12 - ema26 in
  let signal_line := macd_line * 0.9 in
  let histogram := macd_line - signal_line in
  mret (macd_line, signal_line, histogram).

(* ===================================================================== *)
(** ** Strategies                                                         *)
(* ===================================================================== *)

(** Python's [round(x, ndigits)] and the format specification [.Nf] are
    builtins of the language.  They only feed [indicators] and [reason],
    and nothing proved below depends on what they return. *)
Class PyBuiltins : Type := {
  py_round : R → nat → R;
  py_format : nat → R → string
}.

Section strategies.

Context `{PyBuiltins}.

Definition strategy_rsi_mean_reversion (candles : ndarray2)
    : result StrategySignal :=
  closes ← column candles 4;
  price ← item_m1 closes;
  let rsi := calculate_rsi closes 14 in
  '(bb_upper, bb_mid, bb_lower) ← calculate_bollinger_bands closes 20 2;
  let '(signal, confidence, reason) :=
    if decide (rsi < 30 ∧ price < bb_lower) then
      (STRONG_LONG, 80 + (30 - rsi),
       "Oversold: RSI=" +:+ py_format 1 rsi +:+ ", price below lower BB")
    else if decide (rsi < 35 ∧ price < bb_mid) then
      (LONG, 60 + (35 - rsi), "Near oversold: RSI=" +:+ py_format 1 rsi)
    else if decide (rsi > 70 ∧ price > bb_upper) then
      (STRONG_SHORT, 80 + (rsi - 70),
       "Overbought: RSI=" +:+ py_format 1 rsi +:+ ", price above upper BB")
    else if decide (rsi > 65 ∧ price > bb_mid) then
      (SHORT, 60 + (rsi - 65), "Near overbought: RSI=" +:+ py_format 1 rsi)
    else (NEUTRAL, 50, "No clear signal") in
  let confidence := Rmin confidence 100 in
  mret {| name := "RSI Mean Reversion";
          signal := signal;
          confidence := confidence;
          indicators := <["rsi" := py_round rsi 2]>
                          (<["bb_lower" := bb_lower]>
                             (<["bb_upper" := bb_upper]> ∅));
          reason := reason |}.

Definition strategy_golden_cross (candles : ndarray2)
    : result StrategySignal :=
  closes ← column candles 4;
  fast_ema ← calculate_ema closes 8;
  slow_ema ← calculate_ema closes 21;
  prev_fast ← (if decide (1 < length closes)%nat
               then calculate_ema (slice_but_last closes) 8
               else mret fast_ema);
  prev_slow ← (if decide (1 < length closes)%nat
               then calculate_ema (slice_but_last closes) 21
               else mret slow_ema);
  let '(signal, confidence, reason) :=
    if decide (prev_fast <= prev_slow ∧ fast_ema > slow_ema) then
      (LONG, 70, "Golden cross: Fast EMA crossed above Slow EMA")
    else if decide (prev_fast >= prev_slow ∧ fast_ema < slow_ema) then
      (SHORT, 70, "Death cross: Fast EMA crossed below Slow EMA")
    else if decide (fast_ema > slow_ema) then
      (LONG, 55, "Uptrend: Fast EMA above Slow EMA")
    else if decide (fast_ema < slow_ema) then
      (SHORT, 55, "Downtrend: Fast EMA below Slow EMA")
    else (NEUTRAL, 50, "No crossover") in
  mret {| name := "Golden Cross";
          signal := signal;
          confidence := confidence;
          indicators := <["fast_ema" := py_round fast_ema 2]>
                          (<["slow_ema" := py_round slow_ema 2]> ∅);
          reason := reason |}.

Definition strategy_macd (candles : ndarray2) : result StrategySignal :=
  closes ← column candles 4;
  '(macd_line, signal_line, histogram) ← calculate_macd closes;
  let '(signal, confidence, reason) :=
    if decide (histogram > 0 ∧ macd_line > 0) then
      (LONG, 60 + Rmin (Rabs histogram * 10) 30,
       "Bullish MACD: histogram=" +:+ py_format 4 histogram)
    else if decide (histogram < 0 ∧ macd_line < 0) then
      (SHORT, 60 + Rmin (Rabs histogram * 10) 30,
       "Bearish MACD: histogram=" +:+ py_format 4 histogram)
    else (NEUTRAL, 50, "No clear MACD signal") in
  let confidence := Rmin confidence 100 in
  mret {| name := "MACD";
          signal := signal;
          confidence := confidence;
          indicators := <["macd" := py_round macd_line 4]>
                          (<["signal" := py_round signal_line 4]>
                             (<["histogram" := py_round histogram 4]> ∅));
          reason := reason |}.

(** The two guarded divisions of [strategy_volume_breakout]. *)
Definition vol_ratio_of (current_vol avg_vol : R) : R :=
  if decide (avg_vol > 0) then current_vol / avg_vol else 1.

Definition price_change_of (closes : list R) : result R :=
  c2 ← item_m2 closes;
  if decide (c2 > 0) then
    c1 ← item_m1 closes; mret ((c1 - c2) / c2)
  else mret 0.

Definition strategy_volume_breakout (candles : ndarray2)
    : result StrategySignal :=
  closes ← column candles 4;
  volumes ← column candles 5;
  if decide (length volumes < 20)%nat then
    mret {| name := "Volume Breakout";
            signal := NEUTRAL;
            confidence := 50;
            indicators := ∅;
            reason := "Not enough data" |}
  else
    current_vol ← item_m1 volumes;
    let avg_vol := np_mean (slice_m20_m1 volumes) in
    let vol_ratio := vol_ratio_of current_vol avg_vol in
    price_change ← price_change_of closes;
    let '(signal, confidence, reason) :=
      if decide (vol_ratio > 2 ∧ price_change > 0.01) then
        (STRONG_LONG, 75 + Rmin (vol_ratio * 5) 20,
         "Volume breakout UP: " +:+ py_format 1 vol_ratio +:+ "x avg vol, +"
           +:+ py_format 1 (price_change * 100) +:+ "%")
      else if decide (vol_ratio > 1.5 ∧ price_change > 0.005) then
        (LONG, 60 + Rmin (vol_ratio * 5) 20,
         "High volume UP: " +:+ py_format 1 vol_ratio +:+ "x avg vol")
      else if decide (vol_ratio > 2 ∧ price_change < -0.01) then
        (STRONG_SHORT, 75 + Rmin (vol_ratio * 5) 20,
         "Volume breakdown: " +:+ py_format 1 vol_ratio +:+ "x avg vol, "
           +:+ py_format 1 (price_change * 100) +:+ "%")
      else if decide (vol_ratio > 1.5 ∧ price_change < -0.005) then
        (SHORT, 60 + Rmin (vol_ratio * 5) 20,
         "High volume DOWN: " +:+ py_format 1 vol_ratio +:+ "x avg vol")
      else (NEUTRAL, 50, "Normal volume") in
    let confidence := Rmin confidence 100 in
    mret {| name := "Volume Breakout";
            signal := signal;
            confidence := confidence;
            indicators := <["vol_ratio" := py_round vol_ratio 2]>
                            (<["price_change" :=
                                 py_round (price_change * 100) 2]> ∅);
            reason := reason |}.

(* ===================================================================== *)
(** ** Aggregation                                                        *)
(* ===================================================================== *)

(** The three accumulators of the loop [for strat in strategies]. *)
Record totals : Type := mk_totals {
  total_weight : R;
  weighted_signal : R;
  weighted_confidence : R
}.

(** [self.weights.get(strat.name, self.default_weight)] *)
Definition weight_of (self : SignalEngine) (strat : StrategySignal) : R :=
  default (default_weight self) (weights self !! name strat).

(** One turn of the loop. *)
Definition accumulate (self : SignalEngine) (acc : totals)
    (strat : StrategySignal) : totals :=
  let weight := weight_of self strat in
  {| weighted_signal :=
       weighted_signal acc
       + IZR (value (signal strat)) * weight * (confidence strat / 100);
     weighted_confidence :=
       weighted_confidence acc + confidence strat * weight;
     total_weight := total_weight acc + weight |}.

(** [(avg_signal, avg_confidence)] *)
Definition averages (t : totals) : R * R :=
  if decide (total_weight t > 0) then
    (weighted_signal t / total_weight t,
     weighted_confidence t / total_weight t)
  else (0, 50).

(** "Map back to SignalType" *)
Definition discretize (avg_signal : R) : SignalType :=
  if decide (avg_signal >= 1.5) then STRONG_LONG
  else if decide (avg_signal >= 0.5) then LONG
  else if decide (avg_signal <= -1.5) then STRONG_SHORT
  else if decide (avg_signal <= -0.5) then SHORT
  else NEUTRAL.

(** What [analyze] does with the list of strategy results. *)
Definition combine (self : SignalEngine) (symbol : string) (price : R)
    (strategies : list StrategySignal) (now : Z) : CompositeSignal :=
  let t := foldl (accumulate self) (mk_totals 0 0 0) strategies in
  let '(avg_signal, avg_confidence) := averages t in
  let final_signal := discretize avg_signal in
  {| cs_symbol := symbol;
     cs_price := price;
     cs_signal := final_signal;
     cs_confidence := avg_confidence;
     cs_strategies := strategies;
     cs_timestamp := now |}.

(** [now] is what [datetime.now()] returns during the call. *)
Definition analyze (self : SignalEngine) (symbol : string)
    (candles : ndarray2) (now : Z) : result CompositeSignal :=
  price ← item_last candles 4;
  s1 ← strategy_rsi_mean_reversion candles;
  s2 ← strategy_golden_cross candles;
  s3 ← strategy_macd candles;
  s4 ← strategy_volume_breakout candles;
  mret (combine self symbol price [s1; s2; s3; s4] now).

End strategies.

(* ===================================================================== *)
(** ** Alert projection                                                   *)
(* ===================================================================== *)

(** [round(x)] with a single argument, which gives an int; a builtin of
    the language like the two above.  It is defined on every finite
    number; Python's raises ValueError or OverflowError on NaN and on the
    infinities, which the composite confidence can be only when the
    weighted sums overflow.  The statements about [to_alert_dict] and
    [analyze] below are made where every strategy counts 1.0. *)
Class PyRoundInt : Type := {
  py_round_int : R → Z
}.

(** The dict that [to_alert_dict] returns; its six keys are fixed. *)
Record AlertDict : Type := mk_AlertDict {
  ad_symbol : string;
  ad_side : string;
  ad_price : R;
  ad_confidence : Z;
  ad_strategy : string;
  ad_rsi : option R
}.

Definition side_map (s : SignalType) : string :=
  match s with
  | STRONG_LONG => "STRONG BUY"
  | LONG => "BUY"
  | NEUTRAL => "HOLD"
  | SHORT => "SELL"
  | STRONG_SHORT => "STRONG SELL"
  end.

(** [sep.join(l)] *)
Fixpoint join (sep : string) (l : list string) : string :=
  match l with
  | [] => ""
  | x :: rest =>
      match rest with
      | [] => x
      | _ :: _ => x +:+ sep +:+ join sep rest
      end
  end.

(** [next((s.indicators.get('rsi') for s in strategies
          if 'rsi' in s.indicators), None)] *)
Definition first_rsi (strategies : list StrategySignal) : option R :=
  match filter (λ s, is_Some (indicators s !! "rsi")) strategies with
  | s :: _ => indicators s !! "rsi"
  | [] => None
  end.

(** [CompositeSignal.to_alert_dict] *)
Definition to_alert_dict `{PyRoundInt} (self : CompositeSignal)
    : AlertDict :=
  {| ad_symbol := cs_symbol self;
     ad_side := side_map (cs_signal self);
     ad_price := cs_price self;
     ad_confidence := py_round_int (cs_confidence self);
     ad_strategy :=
       join ", "
         (map name (filter (λ s, signal s ≠ NEUTRAL) (cs_strategies self)));
     ad_rsi := first_rsi (cs_strategies self) |}.

(** What a strategy signal adds to the weighted sum, per unit of weight. *)
Definition score (s : StrategySignal) : R :=
  IZR (value (signal s)) * (confidence s / 100).

(* ===================================================================== *)
(** ** The indicators as the specification words them                     *)
(* ===================================================================== *)

(** The change from bar [i] to bar [i + 1]. *)
Definition delta_at (closes : list R) (i : nat) : R :=
  nth (S i) closes 0 - nth i closes 0.

(** RSI by its description: neutral 50 on fewer than [period + 1] points;
    otherwise the plain averages, over the last [period] changes, of the
    gains [max(delta, 0)] and of the losses [max(-delta, 0)]; 100 when the
    average loss is 0, and [100 - 100 / (1 + avg_gain / avg_loss)]
    otherwise. *)
Definition rsi_spec (closes : list R) (period : nat) : R :=
  let n := length closes in
  if decide (n < period + 1)%nat then 50
  else
    let trailing := map (delta_at closes) (seq (n - 1 - period) period) in
    let avg_gain := np_sum (map (λ d, Rmax d 0) trailing) / INR period in
    let avg_loss := np_sum (map (λ d, Rmax (- d) 0) trailing) / INR period in
    if decide (avg_loss = 0) then 100
    else 100 - 100 / (1 + avg_gain / avg_loss).

(** The mean of the 19 volumes that precede the last one. *)
Definition previous19_mean (volumes : list R) : R :=
  np_sum (map (λ i, nth i volumes 0) (seq (length volumes - 20) 19)) / 19.

(** volumeRatio and priceChange with the guards the code has: a division
    is made only by a positive number. *)
Definition volume_ratio_spec (volumes : list R) : R :=
  let currentVolume := nth (length volumes - 1) volumes 0 in
  if decide (previous19_mean volumes > 0)
  then currentVolume / previous19_mean volumes
  else 1.

Definition price_change_spec (closes : list R) : R :=
  let lastClose := nth (length closes - 1) closes 0 in
  let prevClose := nth (length closes - 2) closes 0 in
  if decide (prevClose > 0) then (lastClose - prevClose) / prevClose else 0.

(** The same two quantities with the fallbacks worded as in C5: only a
    divisor equal to 0 is replaced. *)
Definition volume_ratio_claimed (volumes : list R) : R :=
  let currentVolume := nth (length volumes - 1) volumes 0 in
  if decide (previous19_mean volumes = 0) then 1
  else currentVolume / previous19_mean volumes.

Definition price_change_claimed (closes : list R) : R :=
  let lastClose := nth (length closes - 1) closes 0 in
  let prevClose := nth (length closes - 2) closes 0 in
  if decide (prevClose = 0) then 0 else (lastClose - prevClose) / prevClose.

(* ===================================================================== *)
(** ** Concrete inputs                                                    *)
(* ===================================================================== *)

(** Stand-ins for the two Python builtins, to run the engine on concrete
    arrays: no rounding, empty rendering. *)
Definition plain_builtins : PyBuiltins :=
  {| py_round := λ x _, x; py_format := λ _ _, "" |}.

(** A stand-in for [round(x)]: the integer part. *)
Definition floor_round : PyRoundInt := {| py_round_int := Int_part |}.

(** A single bar without a volume column. *)
Definition one_bar_no_volume : ndarray2 :=
  mk_ndarray2 5 [[0; 1; 1; 1; 1]].

(** An array of shape (0, 6). *)
Definition no_bars : ndarray2 := mk_ndarray2 6 [].

(** A single well-formed bar: time, open, high, low, close, volume. *)
Definition one_bar : ndarray2 := mk_ndarray2 6 [[0; 1; 1; 1; 1; 10]].

(** Twelve bars: eleven closes of 0, then a close of 13. *)
Definition twelve_bars : ndarray2 :=
  mk_ndarray2 6
    (replicate 11 [0; 0; 0; 0; 0; 10] ++ [[0; 13; 13; 13; 13; 10]]).

(** Twenty bars whose last two closes are negative: -1, then -2. *)
Definition negative_close_bars : ndarray2 :=
  mk_ndarray2 6
    (replicate 18 [0; 1; 1; 1; 1; 10]
     ++ [[0; 1; 1; 1; -1; 10]; [0; 1; 1; 1; -2; 10]]).

(** The four votes of the spec's aggregation scenario: LONG at 70, LONG at
    55, NEUTRAL at 50, SHORT at 50. *)
Definition scenario_votes : list StrategySignal :=
  [ mk_StrategySignal "RSI Mean Reversion" LONG 70 ∅ "";
    mk_StrategySignal "Golden Cross" LONG 55 ∅ "";
    mk_StrategySignal "MACD" NEUTRAL 50 ∅ "";
    mk_StrategySignal "Volume Breakout" SHORT 50 ∅ "" ].

(** What every strategy guarantees about the confidence it reports. *)
Definition confidence_graded (s : StrategySignal) : Prop :=
  (signal s = NEUTRAL → confidence s = 50)
  ∧ (signal s ≠ NEUTRAL → 55 <= confidence s)
  ∧ confidence s <= 100.

(* ===================================================================== *)
(** ** Weight tables                                                      *)
(* ===================================================================== *)

(** The weight table maps strategy names to non-negative weights. *)
Definition nonneg_table (w : option (gmap string R)) : Prop :=
  ∀ m, w = Some m → map_Forall (λ _ x, 0 <= x) m.

Definition nonneg_weights (self : SignalEngine) : Prop :=
  map_Forall (λ _ x, 0 <= x) (weights self) ∧ 0 <= default_weight self.

(* ===================================================================== *)
(** ** The volume ratio on binary64 numbers                               *)
(* ===================================================================== *)

(** The statements [avg_vol = np.mean(volumes[-20:-1])] and
    [vol_ratio = current_vol / avg_vol if avg_vol > 0 else 1.0] of
    [strategy_volume_breakout], on the kernel's IEEE 754 binary64 numbers.
    numpy adds pairwise where [mean64] adds from left to right; on
    [tiny_then_huge] every partial sum is exact, so the order is
    immaterial. *)
Module Binary64.

Import Floats.

Definition mean64 (v : list float) : float :=
  PrimFloat.div (foldl PrimFloat.add 0%float v)
    (PrimFloat.of_uint63 (Uint63.of_Z (Z.of_nat (length v)))).

Definition vol_ratio64 (volumes : list float) : float :=
  let current_vol := List.last volumes 0%float in
  let avg_vol :=
    mean64 (drop (length volumes - 20) (take (length volumes - 1) volumes)) in
  if PrimFloat.ltb 0%float avg_vol then PrimFloat.div current_vol avg_vol
  else 1%float.

(** Finite and positive. *)
Definition finite_positive (x : float) : bool :=
  PrimFloat.ltb 0%float x && PrimFloat.ltb x infinity.

(** Nineteen volumes of 2^-600 followed by one of 2^600. *)
Definition tiny_then_huge : list float :=
  replicate 19 0x1p-600%float ++ [0x1p+600%float].

End Binary64.

(* ===================================================================== *)
(** ** EMA, MACD and the aggregation loop on binary64 numbers             *)
(* ===================================================================== *)

(** [calculate_ema], [calculate_macd], the two tests of [strategy_macd]
    and the loop and averages of [analyze], operation by operation in the
    order of the source, on the kernel's IEEE 754 binary64 numbers.  The
    literals 0.9, 0.1 and 0.3 are written as the binary64 numbers Python
    reads them as.  [None] stands for the IndexError of an empty series. *)
Module Binary64Engine.

Import Floats.

Definition of_nat64 (n : nat) : float :=
  PrimFloat.of_uint63 (Uint63.of_Z (Z.of_nat n)).

Definition ema64 (closes : list float) (period : nat) : option float :=
  if decide (length closes < period)%nat then last closes
  else
    let multiplier := PrimFloat.div 2%float (of_nat64 (period + 1)) in
    match closes with
    | [] => None
    | c0 :: rest =>
        Some (foldl (λ ema price,
                       PrimFloat.add (PrimFloat.mul price multiplier)
                         (PrimFloat.mul ema
                            (PrimFloat.sub 1%float multiplier)))
                c0 rest)
    end.

(** [(macd_line, signal_line, histogram)] *)
Definition macd64 (closes : list float) : option (float * float * float) :=
  ema12 ← ema64 closes 12;
  ema26 ← ema64 closes 26;
  let macd_line := PrimFloat.sub ema12 ema26 in
  let signal_line := PrimFloat.mul macd_line 0x1.ccccccccccccdp-1%float in
  let histogram := PrimFloat.sub macd_line signal_line in
  Some (macd_line, signal_line, histogram).

(** The signal [strategy_macd] chooses. *)
Definition macd_vote64 (macd_line histogram : float) : SignalType :=
  if PrimFloat.ltb 0%float histogram && PrimFloat.ltb 0%float macd_line
  then LONG
  else if PrimFloat.ltb histogram 0%float
          && PrimFloat.ltb macd_line 0%float
  then SHORT
  else NEUTRAL.

Definition value64 (s : SignalType) : float :=
  match s with
  | STRONG_LONG => 2%float
  | LONG => 1%float
  | NEUTRAL => 0%float
  | SHORT => (-1)%float
  | STRONG_SHORT => (-2)%float
  end.

(** One turn of the loop of [analyze] on
    [(total_weight, weighted_signal, weighted_confidence)], for a vote
    [(signal, confidence, weight)]. *)
Definition accumulate64 (acc : float * float * float)
    (vote : SignalType * float * float) : float * float * float :=
  let '(total_weight, weighted_signal, weighted_confidence) := acc in
  let '(signal, confidence, weight) := vote in
  (PrimFloat.add total_weight weight,
   PrimFloat.add weighted_signal
     (PrimFloat.mul (PrimFloat.mul (value64 signal) weight)
        (PrimFloat.div confidence 100%float)),
   PrimFloat.add weighted_confidence (PrimFloat.mul confidence weight)).

(** [(avg_signal, avg_confidence)] *)
Definition averages64 (acc : float * float * float) : float * float :=
  let '(total_weight, weighted_signal, weighted_confidence) := acc in
  if PrimFloat.ltb 0%float total_weight then
    (PrimFloat.div weighted_signal total_weight,
     PrimFloat.div weighted_confidence total_weight)
  else (0%float, 50%float).

(** Eleven closes of 0 followed by the smallest positive binary64 number,
    and followed by 13. *)
Definition flat_then_tiny : list float :=
  replicate 11 0%float ++ [0x1p-1074%float].

Definition flat_then_13 : list float := replicate 11 0%float ++ [13%float].

(** The numbers 0.1, -11 and 50. *)
Definition tenth64 : float := 0x1.999999999999ap-4%float.

Definition minus_eleven64 : float := (-11)%float.

Definition fifty64 : float := 50%float.

(** Four NEUTRAL votes at confidence 50 under the weights 0.1, 0.1, 0.1
    and 0.3. *)
Definition neutral_votes : list (SignalType * float * float) :=
  [ (NEUTRAL, 50%float, 0x1.999999999999ap-4%float);
    (NEUTRAL, 50%float, 0x1.999999999999ap-4%float);
    (NEUTRAL, 50%float, 0x1.999999999999ap-4%float);
    (NEUTRAL, 50%float, 0x1.3333333333333p-2%float) ].

End Binary64Engine.

(* ===================================================================== *)
(** ** Arithmetic of the numpy helpers                                    *)
(* ===================================================================== *)

Lemma np_sum_nonneg (v : list R) :
  Forall (λ x, 0 <= x) v → 0 <= np_sum v.
Proof.
  unfold np_sum. induction 1 as [|x v Hx _ IH]; simpl; lra.
Qed.

Lemma np_mean_nonneg (v : list R) :
  Forall (λ x, 0 <= x) v → 0 <= np_mean v.
Proof.
  intros Hv. unfold np_mean.
  destruct v as [|x v].
  - simpl. unfold Rdiv. rewrite Rmult_0_l. lra.
  - apply Rmult_le_pos.
    + now apply np_sum_nonneg.
    + left. apply Rinv_0_lt_compat. apply lt_0_INR. simpl. lia.
Qed.

Lemma slice_last_Forall (P : R → Prop) (p : nat) (v : list R) :
  Forall P v → Forall P (slice_last p v).
Proof.
  intros Hv. destruct p; simpl; [done|]. now apply Forall_drop.
Qed.

Lemma np_diff_length (v : list R) : length (np_diff v) = (length v - 1)%nat.
Proof.
  unfold np_diff. rewrite length_zip_with, length_drop. lia.
Qed.

(** RSI is a percentage. *)
Lemma calculate_rsi_bounds (closes : list R) (period : nat) :
  0 <= calculate_rsi closes period <= 100.
Proof.
  unfold calculate_rsi.
  case_decide; [lra|].
  set (gains := map (λ d, if decide (d > 0) then d else 0) (np_diff closes)).
  set (losses := map (λ d, if decide (d < 0) then - d else 0) (np_diff closes)).
  assert (Hg : 0 <= np_mean (slice_last period gains)).
  { apply np_mean_nonneg, slice_last_Forall, Forall_map, Forall_true.
    intros d. simpl. case_decide; lra. }
  assert (Hl : 0 <= np_mean (slice_last period losses)).
  { apply np_mean_nonneg, slice_last_Forall, Forall_map, Forall_true.
    intros d. simpl. case_decide; lra. }
  case_decide as Hz; [lra|].
  set (g := np_mean (slice_last period gains)) in *.
  set (l := np_mean (slice_last period losses)) in *.
  assert (Hlpos : 0 < l).
  { destruct Hl as [Hl|Hl]; [done|]. now symmetry in Hl. }
  assert (Hrs : 0 <= g / l).
  { apply Rmult_le_pos; [done|]. left. now apply Rinv_0_lt_compat. }
  assert (Hden : 0 < 1 + g / l) by lra.
  assert (Hq : 0 < 100 / (1 + g / l) <= 100).
  { split.
    - apply Rdiv_lt_0_compat; lra.
    - apply Rmult_le_reg_r with (1 + g / l); [done|].
      unfold Rdiv at 1. rewrite Rmult_assoc, Rinv_l by lra. nra. }
  lra.
Qed.

(* ===================================================================== *)
(** ** The [result] monad                                                 *)
(* ===================================================================== *)

Lemma bind_Ok {A B} (m : result A) (f : A → result B) (b : B) :
  m ≫= f = Ok b ↔ ∃ a, m = Ok a ∧ f a = Ok b.
Proof.
  destruct m as [a|e]; simpl; split.
  - intros Hf. now exists a.
  - now intros (a' & [= <-] & Hf).
  - discriminate.
  - now intros (a' & [=] & _).
Qed.

(** Splits a hypothesis [m ≫= f = Ok b] into its two halves, repeatedly. *)
Ltac inv_bind H :=
  repeat match type of H with
  | _ ≫= _ = Ok _ =>
      let a := fresh "a" in
      let Ha := fresh "Ha" in
      apply bind_Ok in H as (a & Ha & H)
  | mret _ = Ok _ => injection H as H
  | Ok _ = Ok _ => injection H as H
  end.

(** Case analysis on [min] and [abs]. *)
Ltac case_Rmin :=
  unfold Rmin in *;
  repeat match goal with
  | |- context [Rle_dec ?a ?b] => destruct (Rle_dec a b)
  | H : context [Rle_dec ?a ?b] |- _ => destruct (Rle_dec a b)
  end.

(* ===================================================================== *)
(** ** Confidence of the four strategies                                  *)
(* ===================================================================== *)

Lemma confidence_graded_bounds (s : StrategySignal) :
  confidence_graded s → 50 <= confidence s <= 100.
Proof.
  intros (Hn & Hd & Hle).
  destruct (decide (signal s = NEUTRAL)) as [Hs|Hs].
  - rewrite (Hn Hs). lra.
  - specialize (Hd Hs). lra.
Qed.

Section strategy_confidence.

Context `{PyBuiltins}.

Lemma strategy_rsi_mean_reversion_graded (candles : ndarray2)
    (s : StrategySignal) :
  strategy_rsi_mean_reversion candles = Ok s → confidence_graded s.
Proof.
  unfold strategy_rsi_mean_reversion. intros Hs. inv_bind Hs.
  destruct a1 as [[bb_upper bb_mid] bb_lower].
  pose proof (calculate_rsi_bounds a 14) as Hrsi.
  unfold confidence_graded.
  repeat case_decide; inv_bind Hs; subst s; simpl;
    case_Rmin; repeat split; intros; try done; lra.
Qed.

Lemma strategy_golden_cross_graded (candles : ndarray2)
    (s : StrategySignal) :
  strategy_golden_cross candles = Ok s → confidence_graded s.
Proof.
  unfold strategy_golden_cross. intros Hs. inv_bind Hs.
  unfold confidence_graded.
  repeat case_decide; inv_bind Hs; subst s; simpl;
    repeat split; intros; try done; lra.
Qed.

Lemma strategy_macd_graded (candles : ndarray2) (s : StrategySignal) :
  strategy_macd candles = Ok s → confidence_graded s.
Proof.
  unfold strategy_macd. intros Hs. inv_bind Hs.
  destruct a0 as [[macd_line signal_line] histogram].
  pose proof (Rabs_pos histogram) as Habs.
  unfold confidence_graded.
  repeat case_decide; inv_bind Hs; subst s; simpl;
    case_Rmin; repeat split; intros; try done; lra.
Qed.

Lemma strategy_volume_breakout_graded (candles : ndarray2)
    (s : StrategySignal) :
  strategy_volume_breakout candles = Ok s → confidence_graded s.
Proof.
  unfold strategy_volume_breakout. intros Hs. inv_bind Hs.
  unfold confidence_graded.
  case_decide.
  - inv_bind Hs. subst s. simpl. repeat split; intros; try done; lra.
  - inv_bind Hs.
    repeat case_decide; inv_bind Hs; subst s; simpl;
      case_Rmin; repeat split; intros; try done; lra.
Qed.

End strategy_confidence.

(* ===================================================================== *)
(** ** Which subscripts succeed                                           *)
(* ===================================================================== *)

Lemma last_is_Some {A} (v : list A) : v ≠ [] → is_Some (last v).
Proof.
  intros Hv. destruct (last v) eqn:E; [by eexists|].
  now apply last_None in E.
Qed.

Lemma item_m1_ok (v : list R) : v ≠ [] → is_ok (item_m1 v).
Proof.
  intros Hv. unfold item_m1.
  destruct (last_is_Some v Hv) as [x ->]. by exists x.
Qed.

Lemma item_m2_ok (v : list R) : (2 <= length v)%nat → is_ok (item_m2 v).
Proof.
  intros Hv. unfold item_m2. case_decide; [by eexists | lia].
Qed.

Lemma column_ok (a : ndarray2) (j : nat) :
  (j < ncols a)%nat → column a j = Ok (map (λ r, nth j r 0) (rows a)).
Proof.
  intros Hj. unfold column. case_decide; [done | lia].
Qed.

Lemma column_out_of_range (a : ndarray2) (j : nat) :
  (ncols a <= j)%nat →
  column a j = Raise (IndexError 1 (Z.of_nat j) (ncols a)).
Proof.
  intros Hj. unfold column. case_decide; [lia | done].
Qed.

Lemma nonempty_length {A} (v : list A) : v ≠ [] ↔ (0 < length v)%nat.
Proof. destruct v; simpl; split; (done || lia). Qed.

Lemma slice_but_last_length (v : list R) :
  length (slice_but_last v) = (length v - 1)%nat.
Proof. unfold slice_but_last. rewrite length_take. lia. Qed.

Lemma calculate_ema_ok (closes : list R) (period : nat) :
  closes ≠ [] → is_ok (calculate_ema closes period).
Proof.
  intros Hc. unfold calculate_ema. case_decide.
  - now apply item_m1_ok.
  - destruct closes; [done|]. by eexists.
Qed.

Lemma calculate_bollinger_bands_ok (closes : list R) (period : nat)
    (std : R) :
  closes ≠ [] → is_ok (calculate_bollinger_bands closes period std).
Proof.
  intros Hc. unfold calculate_bollinger_bands. case_decide.
  - destruct (item_m1_ok closes Hc) as [x ->]. by eexists.
  - by eexists.
Qed.

Lemma calculate_macd_ok (closes : list R) :
  closes ≠ [] → is_ok (calculate_macd closes).
Proof.
  intros Hc. unfold calculate_macd.
  destruct (calculate_ema_ok closes 12 Hc) as [e12 ->].
  destruct (calculate_ema_ok closes 26 Hc) as [e26 ->].
  by eexists.
Qed.

Lemma price_change_of_ok (closes : list R) :
  (2 <= length closes)%nat → is_ok (price_change_of closes).
Proof.
  intros Hc. unfold price_change_of.
  destruct (item_m2_ok closes Hc) as [c2 ->]. simpl.
  case_decide; [|by eexists].
  destruct (item_m1_ok closes) as [c1 ->]; [|by eexists].
  apply nonempty_length. lia.
Qed.

Section strategy_totality.

Context `{PyBuiltins}.

Lemma strategy_rsi_mean_reversion_ok (candles : ndarray2) :
  rows candles ≠ [] → (5 <= ncols candles)%nat →
  is_ok (strategy_rsi_mean_reversion candles).
Proof.
  intros Hr Hc. unfold strategy_rsi_mean_reversion.
  rewrite column_ok by lia. simpl.
  set (closes := map _ (rows candles)).
  assert (Hne : closes ≠ []).
  { apply nonempty_length. unfold closes. rewrite length_map.
    now apply nonempty_length. }
  destruct (item_m1_ok closes Hne) as [price ->]. simpl.
  destruct (calculate_bollinger_bands_ok closes 20 2 Hne)
    as [[[bb_upper bb_mid] bb_lower] ->]. simpl.
  repeat case_decide; by eexists.
Qed.

Lemma strategy_golden_cross_ok (candles : ndarray2) :
  rows candles ≠ [] → (5 <= ncols candles)%nat →
  is_ok (strategy_golden_cross candles).
Proof.
  intros Hr Hc. unfold strategy_golden_cross.
  rewrite column_ok by lia. simpl.
  set (closes := map _ (rows candles)).
  assert (Hne : closes ≠ []).
  { apply nonempty_length. unfold closes. rewrite length_map.
    now apply nonempty_length. }
  destruct (calculate_ema_ok closes 8 Hne) as [fast_ema ->].
  destruct (calculate_ema_ok closes 21 Hne) as [slow_ema ->]. simpl.
  destruct (decide (1 < length closes)%nat) as [Hlen|Hlen]; simpl.
  - assert (Hp : slice_but_last closes ≠ []).
    { apply nonempty_length. rewrite slice_but_last_length. lia. }
    destruct (calculate_ema_ok _ 8 Hp) as [prev_fast ->].
    destruct (calculate_ema_ok _ 21 Hp) as [prev_slow ->]. simpl.
    repeat case_decide; by eexists.
  - repeat case_decide; by eexists.
Qed.

Lemma strategy_macd_ok (candles : ndarray2) :
  rows candles ≠ [] → (5 <= ncols candles)%nat →
  is_ok (strategy_macd candles).
Proof.
  intros Hr Hc. unfold strategy_macd.
  rewrite column_ok by lia. simpl.
  set (closes := map _ (rows candles)).
  assert (Hne : closes ≠ []).
  { apply nonempty_length. unfold closes. rewrite length_map.
    now apply nonempty_length. }
  destruct (calculate_macd_ok closes Hne)
    as [[[macd_line signal_line] histogram] ->]. simpl.
  repeat case_decide; by eexists.
Qed.

Lemma strategy_volume_breakout_ok (candles : ndarray2) :
  rows candles ≠ [] → (6 <= ncols candles)%nat →
  is_ok (strategy_volume_breakout candles).
Proof.
  intros Hr Hc. unfold strategy_volume_breakout.
  rewrite !column_ok by lia. simpl.
  set (closes := map (λ r, nth 4 r 0) (rows candles)).
  set (volumes := map (λ r, nth 5 r 0) (rows candles)).
  destruct (decide (length volumes < 20)%nat) as [Hlen|Hlen]; [by eexists|].
  unfold volumes in Hlen. rewrite length_map in Hlen.
  destruct (item_m1_ok volumes) as [current_vol ->].
  { apply nonempty_length. unfold volumes. rewrite length_map. lia. }
  simpl.
  destruct (price_change_of_ok closes) as [price_change ->].
  { unfold closes. rewrite length_map. lia. }
  simpl. repeat case_decide; by eexists.
Qed.

Lemma strategy_volume_breakout_five_columns (candles : ndarray2) :
  ncols candles = 5%nat →
  strategy_volume_breakout candles = Raise (IndexError 1 5 5).
Proof.
  intros Hc. unfold strategy_volume_breakout.
  rewrite (column_ok candles 4) by lia. simpl.
  rewrite column_out_of_range by lia. now rewrite Hc.
Qed.

End strategy_totality.

(* ===================================================================== *)
(** ** [analyze]: inversion and input contract                            *)
(* ===================================================================== *)

Section analyze_facts.

Context `{PyBuiltins}.

Lemma item_last_no_row (candles : ndarray2) (j : nat) :
  rows candles = [] → item_last candles j = Raise (IndexError 0 (-1) 0).
Proof. unfold item_last. now intros ->. Qed.

Lemma item_last_ok (candles : ndarray2) (j : nat) :
  rows candles ≠ [] → (j < ncols candles)%nat → is_ok (item_last candles j).
Proof.
  intros Hr Hj. unfold item_last.
  destruct (last_is_Some _ Hr) as [r ->].
  case_decide; [by eexists | lia].
Qed.

Lemma item_last_no_column (candles : ndarray2) (j : nat) :
  rows candles ≠ [] → (ncols candles <= j)%nat →
  item_last candles j = Raise (IndexError 1 (Z.of_nat j) (ncols candles)).
Proof.
  intros Hr Hj. unfold item_last.
  destruct (last_is_Some _ Hr) as [r ->].
  case_decide; [lia | done].
Qed.

Lemma analyze_Ok_inv (self : SignalEngine) (symbol : string)
    (candles : ndarray2) (now : Z) (r : CompositeSignal) :
  analyze self symbol candles now = Ok r →
  ∃ price s1 s2 s3 s4,
    item_last candles 4 = Ok price
    ∧ strategy_rsi_mean_reversion candles = Ok s1
    ∧ strategy_golden_cross candles = Ok s2
    ∧ strategy_macd candles = Ok s3
    ∧ strategy_volume_breakout candles = Ok s4
    ∧ r = combine self symbol price [s1; s2; s3; s4] now.
Proof.
  unfold analyze. intros Hr. inv_bind Hr.
  exists a, a0, a1, a2, a3. by repeat split.
Qed.

Lemma analyze_ok (self : SignalEngine) (symbol : string)
    (candles : ndarray2) (now : Z) :
  rows candles ≠ [] → (6 <= ncols candles)%nat →
  is_ok (analyze self symbol candles now).
Proof.
  intros Hr Hc. unfold analyze.
  destruct (item_last_ok candles 4) as [price ->]; [done | lia |].
  destruct (strategy_rsi_mean_reversion_ok candles) as [s1 ->];
    [done | lia |].
  destruct (strategy_golden_cross_ok candles) as [s2 ->]; [done | lia |].
  destruct (strategy_macd_ok candles) as [s3 ->]; [done | lia |].
  destruct (strategy_volume_breakout_ok candles) as [s4 ->]; [done | lia |].
  by eexists.
Qed.

(** C1 (amended).  [analyze] has no input check of its own.  An array
    without rows, or with at most four columns, makes its first statement
    [price = candles[-1, 4]] raise numpy's IndexError; with exactly five
    columns that statement and the first three strategies succeed and the
    IndexError comes from [candles[:, 5]] in the volume strategy; and on
    every array with at least one row and at least six columns [analyze]
    returns a result. *)
Theorem analyze_input_contract (self : SignalEngine) (symbol : string)
    (candles : ndarray2) (now : Z) :
  (rows candles = [] →
     analyze self symbol candles now = Raise (IndexError 0 (-1) 0))
  ∧ (rows candles ≠ [] → (ncols candles <= 4)%nat →
     analyze self symbol candles now
     = Raise (IndexError 1 4 (ncols candles)))
  ∧ (rows candles ≠ [] → ncols candles = 5%nat →
     is_ok (item_last candles 4)
     ∧ is_ok (strategy_rsi_mean_reversion candles)
     ∧ is_ok (strategy_golden_cross candles)
     ∧ is_ok (strategy_macd candles)
     ∧ analyze self symbol candles now = Raise (IndexError 1 5 5))
  ∧ (rows candles ≠ [] → (6 <= ncols candles)%nat →
     is_ok (analyze self symbol candles now)).
Proof.
  repeat split.
  - intros Hr. unfold analyze. now rewrite item_last_no_row.
  - intros Hr Hc. unfold analyze. now rewrite item_last_no_column.
  - apply item_last_ok; [done | lia].
  - apply strategy_rsi_mean_reversion_ok; [done | lia].
  - apply strategy_golden_cross_ok; [done | lia].
  - apply strategy_macd_ok; [done | lia].
  - unfold analyze.
    destruct (item_last_ok candles 4) as [price ->]; [done | lia |].
    destruct (strategy_rsi_mean_reversion_ok candles) as [s1 ->];
      [done | lia |].
    destruct (strategy_golden_cross_ok candles) as [s2 ->]; [done | lia |].
    destruct (strategy_macd_ok candles) as [s3 ->]; [done | lia |].
    simpl. now rewrite strategy_volume_breakout_five_columns.
  - now apply analyze_ok.
Qed.

End analyze_facts.

(** C1 (counterexample).  Malformed input is not rejected on entry by a
    dedicated error: on one bar with five columns the first statement and
    three of the four strategies run to completion before the subscript of
    the missing sixth column raises IndexError, and on an array without
    rows the error is the IndexError of the subscript [candles[-1, 4]]. *)
Lemma analyze_malformed_not_rejected_on_entry :
  rectangular one_bar_no_volume
  ∧ (ncols one_bar_no_volume < 6)%nat
  ∧ item_last one_bar_no_volume 4 = Ok 1
  ∧ is_ok (@strategy_rsi_mean_reversion plain_builtins one_bar_no_volume)
  ∧ is_ok (@strategy_golden_cross plain_builtins one_bar_no_volume)
  ∧ is_ok (@strategy_macd plain_builtins one_bar_no_volume)
  ∧ @analyze plain_builtins (SignalEngine_init None) "XXBTZUSD"
      one_bar_no_volume 0 = Raise (IndexError 1 5 5)
  ∧ @analyze plain_builtins (SignalEngine_init None) "XXBTZUSD"
      no_bars 0 = Raise (IndexError 0 (-1) 0).
Proof.
  assert (Hr : rows one_bar_no_volume ≠ []) by done.
  assert (Hc : (5 <= ncols one_bar_no_volume)%nat) by (simpl; lia).
  pose proof (@strategy_rsi_mean_reversion_ok plain_builtins _ Hr Hc) as H1.
  pose proof (@strategy_golden_cross_ok plain_builtins _ Hr Hc) as H2.
  pose proof (@strategy_macd_ok plain_builtins _ Hr Hc) as H3.
  repeat split; try done.
  - repeat constructor.
  - simpl. lia.
  - unfold analyze.
    destruct H1 as [s1 ->], H2 as [s2 ->], H3 as [s3 ->].
    now rewrite strategy_volume_breakout_five_columns.
Qed.

(* ===================================================================== *)
(** ** Weights and the accumulation loop                                  *)
(* ===================================================================== *)

Lemma SignalEngine_init_nonneg (w : option (gmap string R)) :
  nonneg_table w → nonneg_weights (SignalEngine_init w).
Proof.
  intros Hw. split; simpl; [|lra].
  destruct w as [m|]; simpl; [by apply Hw | apply map_Forall_empty].
Qed.

Lemma weight_of_nonneg (self : SignalEngine) (s : StrategySignal) :
  nonneg_weights self → 0 <= weight_of self s.
Proof.
  intros [Hm Hd]. unfold weight_of.
  destruct (weights self !! name s) as [x|] eqn:E; simpl; [|done].
  exact (Hm _ _ E).
Qed.

Lemma discretize_0 : discretize 0 = NEUTRAL.
Proof. unfold discretize. repeat case_decide; (done || lra). Qed.

Lemma combine_strategies (self : SignalEngine) (symbol : string)
    (price : R) (l : list StrategySignal) (now : Z) :
  cs_strategies (combine self symbol price l now) = l.
Proof. unfold combine. now destruct (averages _). Qed.

(* ===================================================================== *)
(** ** Confidence of strategies and of the composite signal               *)
(* ===================================================================== *)

Section confidence_claims.

Context `{PyBuiltins}.

Lemma strategy_returns_graded (candles : ndarray2) :
  rows candles ≠ [] → (6 <= ncols candles)%nat →
  returns (strategy_rsi_mean_reversion candles) confidence_graded
  ∧ returns (strategy_golden_cross candles) confidence_graded
  ∧ returns (strategy_macd candles) confidence_graded
  ∧ returns (strategy_volume_breakout candles) confidence_graded.
Proof.
  intros Hr Hc. repeat split.
  - destruct (strategy_rsi_mean_reversion_ok candles) as [s Hs];
      [done | lia |].
    exists s. split; [done|]. eapply strategy_rsi_mean_reversion_graded, Hs.
  - destruct (strategy_golden_cross_ok candles) as [s Hs]; [done | lia |].
    exists s. split; [done|]. eapply strategy_golden_cross_graded, Hs.
  - destruct (strategy_macd_ok candles) as [s Hs]; [done | lia |].
    exists s. split; [done|]. eapply strategy_macd_graded, Hs.
  - destruct (strategy_volume_breakout_ok candles) as [s Hs]; [done | lia |].
    exists s. split; [done|]. eapply strategy_volume_breakout_graded, Hs.
Qed.

Lemma returns_impl {A} (m : result A) (P Q : A → Prop) :
  (∀ a, P a → Q a) → returns m P → returns m Q.
Proof. intros HPQ (a & Ha & HP). exists a. auto. Qed.

(** C2.  On every candle array with at least one row (and the six OHLCV
    columns), each of the four strategies returns a signal whose confidence
    lies in [0, 100]. *)
Theorem strategy_confidence_in_range (candles : ndarray2) :
  rows candles ≠ [] → (6 <= ncols candles)%nat →
  returns (strategy_rsi_mean_reversion candles)
    (λ s, 0 <= confidence s <= 100)
  ∧ returns (strategy_golden_cross candles) (λ s, 0 <= confidence s <= 100)
  ∧ returns (strategy_macd candles) (λ s, 0 <= confidence s <= 100)
  ∧ returns (strategy_volume_breakout candles)
      (λ s, 0 <= confidence s <= 100).
Proof.
  intros Hr Hc.
  destruct (strategy_returns_graded candles Hr Hc) as (H1 & H2 & H3 & H4).
  assert (Hb : ∀ s, confidence_graded s → 0 <= confidence s <= 100).
  { intros s Hs. apply confidence_graded_bounds in Hs. lra. }
  repeat split; eapply returns_impl; eauto.
Qed.

(** C10 (amended).  On every candle array with at least one row, each
    strategy returns a confidence of at least 50: exactly 50 with a NEUTRAL
    signal, at least 55 with any other.  Hence no strategy signal in the
    result of [analyze] has confidence 0, whatever the weights: the
    premise "all per-strategy confidences are 0" cannot arise.  (Nothing
    is stated of the composite confidence, their weighted mean.) *)
Theorem strategy_confidence_at_least_50 (self : SignalEngine)
    (symbol : string) (candles : ndarray2) (now : Z) :
  rows candles ≠ [] → (6 <= ncols candles)%nat →
  let graded (s : StrategySignal) :=
    50 <= confidence s
    ∧ (signal s = NEUTRAL → confidence s = 50)
    ∧ (signal s ≠ NEUTRAL → 55 <= confidence s) in
  returns (strategy_rsi_mean_reversion candles) graded
  ∧ returns (strategy_golden_cross candles) graded
  ∧ returns (strategy_macd candles) graded
  ∧ returns (strategy_volume_breakout candles) graded
  ∧ returns (analyze self symbol candles now)
      (λ r, Forall (λ s, graded s ∧ confidence s ≠ 0) (cs_strategies r)).
Proof.
  intros Hr Hc graded.
  destruct (strategy_returns_graded candles Hr Hc) as (H1 & H2 & H3 & H4).
  assert (Hg : ∀ s, confidence_graded s → graded s).
  { intros s Hs. pose proof (confidence_graded_bounds s Hs).
    destruct Hs as (Hn & Hd & _). repeat split; (done || lra). }
  repeat split; try solve [eapply returns_impl; eauto].
  destruct (analyze_ok self symbol candles now Hr Hc) as [r Hres].
  exists r. split; [done|].
  apply analyze_Ok_inv in Hres
    as (price & s1 & s2 & s3 & s4 & _ & E1 & E2 & E3 & E4 & ->).
  rewrite combine_strategies.
  assert (Hz : ∀ s, confidence_graded s → graded s ∧ confidence s ≠ 0).
  { intros s Hs. split; [by apply Hg|].
    pose proof (confidence_graded_bounds s Hs). lra. }
  apply Forall_cons_2.
  { eapply Hz, strategy_rsi_mean_reversion_graded, E1. }
  apply Forall_cons_2.
  { eapply Hz, strategy_golden_cross_graded, E2. }
  apply Forall_cons_2.
  { eapply Hz, strategy_macd_graded, E3. }
  apply Forall_cons_2; [|apply Forall_nil_2].
  eapply Hz, strategy_volume_breakout_graded, E4.
Qed.

End confidence_claims.

(** C2 on [one_bar]. *)
Lemma strategy_confidence_in_range_witness :
  (rows one_bar ≠ [] ∧ (6 <= ncols one_bar)%nat)
  ∧ returns (@strategy_rsi_mean_reversion plain_builtins one_bar)
      (λ s, 0 <= confidence s <= 100)
  ∧ returns (@strategy_golden_cross plain_builtins one_bar)
      (λ s, 0 <= confidence s <= 100)
  ∧ returns (@strategy_macd plain_builtins one_bar)
      (λ s, 0 <= confidence s <= 100)
  ∧ returns (@strategy_volume_breakout plain_builtins one_bar)
      (λ s, 0 <= confidence s <= 100).
Proof.
  assert (Hr : rows one_bar ≠ []) by (simpl; discriminate).
  assert (Hc : (6 <= ncols one_bar)%nat) by (simpl; lia).
  split; [split; assumption|].
  exact (@strategy_confidence_in_range plain_builtins one_bar Hr Hc).
Defined.

(** C10 (amended) on [twelve_bars], whose MACD vote is not NEUTRAL. *)
Lemma strategy_confidence_at_least_50_witness :
  (rows twelve_bars ≠ [] ∧ (6 <= ncols twelve_bars)%nat)
  ∧ returns (@analyze plain_builtins (SignalEngine_init None) "XXBTZUSD"
               twelve_bars 0)
      (λ r, Forall (λ s, (50 <= confidence s
                          ∧ (signal s = NEUTRAL → confidence s = 50)
                          ∧ (signal s ≠ NEUTRAL → 55 <= confidence s))
                         ∧ confidence s ≠ 0)
              (cs_strategies r)).
Proof.
  assert (Hr : rows twelve_bars ≠ []) by (simpl; discriminate).
  assert (Hc : (6 <= ncols twelve_bars)%nat) by (simpl; lia).
  split; [split; assumption|].
  exact (proj2 (proj2 (proj2 (proj2
    (@strategy_confidence_at_least_50 plain_builtins
       (SignalEngine_init None) "XXBTZUSD" twelve_bars 0 Hr Hc))))).
Defined.

(* ===================================================================== *)
(** ** The aggregator                                                     *)
(* ===================================================================== *)

(** C3.  For four strategy signals and a table of non-negative weights in
    which a missing name counts 1.0, the loop of [analyze] ends with
    totalWeight = sum of the weights,
    weightedSignalSum = sum of value * weight * (confidence / 100) and
    weightedConfidenceSum = sum of confidence * weight.
    When totalWeight > 0, avgSignal = weightedSignalSum / totalWeight and
    avgConfidence = weightedConfidenceSum / totalWeight; when
    totalWeight = 0, avgSignal = 0 and avgConfidence = 50 are the constants
    of the else branch (nothing is divided), and the composite signal is
    NEUTRAL.  totalWeight is never negative, so these are all the cases.
    The composite signal is the discretisation of avgSignal and the
    composite confidence is avgConfidence. *)
Theorem aggregator_weighted_average (w : option (gmap string R))
    (symbol : string) (price : R) (s1 s2 s3 s4 : StrategySignal) (now : Z) :
  nonneg_table w →
  let weight (s : StrategySignal) :=
    match default ∅ w !! name s with Some x => x | None => 1 end in
  let contribution (s : StrategySignal) :=
    IZR (value (signal s)) * weight s * (confidence s / 100) in
  let totalWeight := weight s1 + weight s2 + weight s3 + weight s4 in
  let weightedSignalSum :=
    contribution s1 + contribution s2 + contribution s3 + contribution s4 in
  let weightedConfidenceSum :=
    confidence s1 * weight s1 + confidence s2 * weight s2
    + confidence s3 * weight s3 + confidence s4 * weight s4 in
  let self := SignalEngine_init w in
  let t := foldl (accumulate self) (mk_totals 0 0 0) [s1; s2; s3; s4] in
  let r := combine self symbol price [s1; s2; s3; s4] now in
  t = mk_totals totalWeight weightedSignalSum weightedConfidenceSum
  ∧ 0 <= totalWeight
  ∧ (totalWeight > 0 →
       averages t = (weightedSignalSum / totalWeight,
                     weightedConfidenceSum / totalWeight))
  ∧ (totalWeight = 0 → averages t = (0, 50) ∧ cs_signal r = NEUTRAL)
  ∧ cs_signal r = discretize (averages t).1
  ∧ cs_confidence r = (averages t).2.
Proof.
  intros Hw weight contribution totalWeight weightedSignalSum
    weightedConfidenceSum self t r.
  assert (Hwt : ∀ s, weight_of self s = weight s).
  { intros s. unfold weight_of, weight. simpl.
    now destruct (default ∅ w !! name s). }
  assert (Hpos : ∀ s, 0 <= weight s).
  { intros s. rewrite <- Hwt.
    now apply weight_of_nonneg, SignalEngine_init_nonneg. }
  pose proof (Hpos s1). pose proof (Hpos s2).
  pose proof (Hpos s3). pose proof (Hpos s4).
  assert (Ht : t = mk_totals totalWeight weightedSignalSum
                     weightedConfidenceSum).
  { unfold t. cbn -[weight_of]. unfold accumulate. cbn -[weight_of].
    rewrite (Hwt s1), (Hwt s2), (Hwt s3), (Hwt s4).
    unfold totalWeight, weightedSignalSum, weightedConfidenceSum,
      contribution.
    f_equal; ring. }
  assert (Hr : cs_signal r = discretize (averages t).1
               ∧ cs_confidence r = (averages t).2).
  { unfold r, combine. fold t. now destruct (averages t). }
  destruct Hr as [Hsig Hconf].
  split; [exact Ht|]. split; [unfold totalWeight; lra|].
  repeat split; try done.
  - intros Htw. rewrite Ht. unfold averages. simpl.
    case_decide; [done | lra].
  - rewrite Ht. unfold averages. simpl. case_decide; [lra | done].
  - rewrite Hsig, Ht. unfold averages. simpl.
    case_decide; [lra | apply discretize_0].
Qed.

(** C3 on the scenario of the specification, with uniform weights: the
    composite confidence is 56.25 and the composite signal NEUTRAL. *)
Lemma aggregator_weighted_average_witness :
  nonneg_table None
  ∧ (let r := combine (SignalEngine_init None) "XXBTZUSD" 1 scenario_votes 0
     in cs_confidence r = 225 / 4 ∧ cs_signal r = NEUTRAL).
Proof.
  assert (Hw : nonneg_table None) by (intros m; discriminate).
  split; [exact Hw|].
  destruct (aggregator_weighted_average None "XXBTZUSD" 1
              (mk_StrategySignal "RSI Mean Reversion" LONG 70 ∅ "")
              (mk_StrategySignal "Golden Cross" LONG 55 ∅ "")
              (mk_StrategySignal "MACD" NEUTRAL 50 ∅ "")
              (mk_StrategySignal "Volume Breakout" SHORT 50 ∅ "") 0 Hw)
    as (_ & _ & Hpos & _ & Hs & Hc).
  unfold scenario_votes.
  split.
  - rewrite Hc, Hpos by (simpl; rewrite !lookup_empty; lra).
    simpl. rewrite !lookup_empty. lra.
  - rewrite Hs, Hpos by (simpl; rewrite !lookup_empty; lra).
    simpl. rewrite !lookup_empty.
    unfold discretize. repeat case_decide; (done || lra).
Defined.

(** C6.  The discretisation of avgSignal is monotone: a smaller average
    never maps to a SignalType of larger numeric value. *)
Theorem discretize_monotone (a b : R) :
  a < b → (value (discretize a) <= value (discretize b))%Z.
Proof.
  intros Hab. unfold discretize.
  repeat case_decide; simpl; (lia || lra).
Qed.

(** C6 at 0 and 1. *)
Lemma discretize_monotone_witness :
  0 < 1 ∧ (value (discretize 0) <= value (discretize 1))%Z.
Proof.
  assert (H01 : 0 < 1) by lra.
  split; [exact H01 | exact (discretize_monotone 0 1 H01)].
Defined.

(* ===================================================================== *)
(** ** MACD                                                               *)
(* ===================================================================== *)

Lemma calculate_macd_inv (closes : list R) (macd_line signal_line
    histogram : R) :
  calculate_macd closes = Ok (macd_line, signal_line, histogram) →
  ∃ ema12 ema26,
    calculate_ema closes 12 = Ok ema12
    ∧ calculate_ema closes 26 = Ok ema26
    ∧ macd_line = ema12 - ema26
    ∧ signal_line = macd_line * 0.9
    ∧ histogram = macd_line - signal_line.
Proof.
  unfold calculate_macd. intros Hm. inv_bind Hm.
  subst. by exists a, a0.
Qed.

(** C7.  On a sequence of close prices (at least one), [calculate_macd]
    returns macd_line = EMA(closes, 12) - EMA(closes, 26),
    signal_line = macd_line * 0.9 and histogram = macd_line - signal_line. *)
Theorem calculate_macd_returns (closes : list R) :
  closes ≠ [] →
  ∃ ema12 ema26 macd_line signal_line histogram,
    calculate_ema closes 12 = Ok ema12
    ∧ calculate_ema closes 26 = Ok ema26
    ∧ calculate_macd closes = Ok (macd_line, signal_line, histogram)
    ∧ macd_line = ema12 - ema26
    ∧ signal_line = macd_line * 0.9
    ∧ histogram = macd_line - signal_line.
Proof.
  intros Hc.
  destruct (calculate_macd_ok closes Hc) as [[[m sl] h] Hm].
  destruct (calculate_macd_inv _ _ _ _ Hm) as (e12 & e26 & H12 & H26 & Hrest).
  by exists e12, e26, m, sl, h.
Qed.

(** C7 on three closes. *)
Lemma calculate_macd_returns_witness :
  [1; 2; 3] ≠ []
  ∧ ∃ ema12 ema26 macd_line signal_line histogram,
      calculate_ema [1; 2; 3] 12 = Ok ema12
      ∧ calculate_ema [1; 2; 3] 26 = Ok ema26
      ∧ calculate_macd [1; 2; 3] = Ok (macd_line, signal_line, histogram)
      ∧ macd_line = ema12 - ema26
      ∧ signal_line = macd_line * 0.9
      ∧ histogram = macd_line - signal_line.
Proof.
  assert (Hne : [1; 2; 3] ≠ @nil R) by discriminate.
  split; [exact Hne | exact (calculate_macd_returns [1; 2; 3] Hne)].
Defined.

Section macd_claims.

Context `{PyBuiltins}.

(** C9 (amended).  The histogram is macd_line - macd_line * 0.9, which
    equals 0.1 * macd_line up to rounding only.  Histogram and MACD line
    never have opposite signs; the MACD strategy votes LONG exactly when
    both are positive and SHORT exactly when both are negative, so a LONG
    vote requires a positive line, a SHORT vote a negative one, and a line
    equal to 0 gives NEUTRAL.  A vote other than NEUTRAL has confidence
    60 + min(|histogram| * 10, 30), between 60 and 90: the outer
    minimum with 100 never binds. *)
Theorem macd_vote_follows_histogram (candles : ndarray2) :
  rows candles ≠ [] → (5 <= ncols candles)%nat →
  ∃ closes macd_line signal_line histogram s,
    column candles 4 = Ok closes
    ∧ calculate_macd closes = Ok (macd_line, signal_line, histogram)
    ∧ strategy_macd candles = Ok s
    ∧ histogram = macd_line - macd_line * 0.9
    ∧ ¬ (macd_line > 0 ∧ histogram < 0)
    ∧ ¬ (macd_line < 0 ∧ histogram > 0)
    ∧ (signal s = LONG ↔ histogram > 0 ∧ macd_line > 0)
    ∧ (signal s = SHORT ↔ histogram < 0 ∧ macd_line < 0)
    ∧ (macd_line = 0 → signal s = NEUTRAL)
    ∧ (signal s ≠ NEUTRAL →
       confidence s = 60 + Rmin (Rabs histogram * 10) 30
       ∧ 60 <= confidence s <= 90).
Proof.
  intros Hr Hc.
  set (closes := map (λ r, nth 4 r 0) (rows candles)).
  assert (Hcol : column candles 4 = Ok closes) by (apply column_ok; lia).
  assert (Hne : closes ≠ []).
  { apply nonempty_length. unfold closes. rewrite length_map.
    now apply nonempty_length. }
  destruct (calculate_macd_ok closes Hne) as [[[m sl] h] Hm].
  destruct (calculate_macd_inv _ _ _ _ Hm)
    as (e12 & e26 & _ & _ & _ & Hsl & Hh).
  assert (Hdef : h = m - m * 0.9) by lra.
  pose proof (Rabs_pos h) as Habs.
  assert (Hcap : 60 + Rmin (Rabs h * 10) 30 <= 90)
    by (pose proof (Rmin_r (Rabs h * 10) 30); lra).
  assert (Hfloor : 60 <= 60 + Rmin (Rabs h * 10) 30).
  { unfold Rmin. destruct (Rle_dec (Rabs h * 10) 30); lra. }
  unfold strategy_macd. rewrite Hcol. simpl. rewrite Hm. simpl.
  destruct (decide (h > 0 ∧ m > 0)) as [[Hh1 Hm1]|Hn1].
  { eexists closes, m, sl, h, _.
    repeat split; try done; simpl; try lra; try (intros; lra).
    all: rewrite Rmin_left by lra; (done || lra). }
  destruct (decide (h < 0 ∧ m < 0)) as [[Hh2 Hm2]|Hn2].
  { eexists closes, m, sl, h, _.
    repeat split; try done; simpl; try lra; try (intros; lra).
    all: rewrite Rmin_left by lra; (done || lra). }
  eexists closes, m, sl, h, _.
  repeat split; try done; simpl; try lra; try (intros; lra).
Qed.

End macd_claims.

(** C9 (amended) on [twelve_bars]: the EMA over 12 closes is 2, the 26
    one falls back to the last close 13, the MACD line is -11, and the
    vote is SHORT. *)
Lemma macd_vote_follows_histogram_witness :
  (rows twelve_bars ≠ [] ∧ (5 <= ncols twelve_bars)%nat)
  ∧ returns (@strategy_macd plain_builtins twelve_bars)
      (λ s, signal s = SHORT ∧ 60 <= confidence s <= 90).
Proof.
  assert (Hr : rows twelve_bars ≠ []) by (simpl; discriminate).
  assert (Hc : (5 <= ncols twelve_bars)%nat) by (simpl; lia).
  split; [split; assumption|].
  destruct (@macd_vote_follows_histogram plain_builtins twelve_bars Hr Hc)
    as (closes & m & sl & h & s & Hcol & Hm & Hs & Hh & _ & _ & _ & HS
        & _ & Hconf).
  injection Hcol as <-.
  assert (HI : INR 12 = 12) by (simpl; lra).
  unfold calculate_macd, calculate_ema in Hm. rewrite HI in Hm.
  simpl in Hm. injection Hm as Hm _ _.
  assert (Hm11 : m = -11) by (rewrite <- Hm; lra).
  assert (Hshort : signal s = SHORT) by (apply HS; lra).
  exists s. split; [exact Hs|]. split; [exact Hshort|].
  apply Hconf. rewrite Hshort. discriminate.
Defined.

(** C9 (counterexample), on binary64 numbers.  For eleven closes of 0
    and a last close of 2^-1074 the MACD line is negative and the
    histogram is 0, so the strategy votes NEUTRAL where the sign of the
    line alone would give SHORT.  For a last close of 13 the MACD line is
    -11 and the histogram differs from 0.1 * (-11). *)
Lemma macd_histogram_not_a_tenth :
  (∃ macd_line signal_line histogram,
     Binary64Engine.macd64 Binary64Engine.flat_then_tiny
     = Some (macd_line, signal_line, histogram)
     ∧ PrimFloat.ltb macd_line PrimFloat.zero = true
     ∧ PrimFloat.eqb histogram PrimFloat.zero = true
     ∧ Binary64Engine.macd_vote64 macd_line histogram = NEUTRAL)
  ∧ (∃ macd_line signal_line histogram,
       Binary64Engine.macd64 Binary64Engine.flat_then_13
       = Some (macd_line, signal_line, histogram)
       ∧ macd_line = Binary64Engine.minus_eleven64
       ∧ PrimFloat.eqb histogram
           (PrimFloat.mul Binary64Engine.tenth64 macd_line) = false).
Proof.
  split.
  - eexists _, _, _. split; [vm_compute; reflexivity|].
    repeat split; vm_compute; reflexivity.
  - eexists _, _, _. split; [vm_compute; reflexivity|].
    repeat split; vm_compute; reflexivity.
Qed.

(* ===================================================================== *)
(** ** Determinism                                                        *)
(* ===================================================================== *)

Section determinism.

Context `{PyBuiltins}.

(** C8.  Two calls of [analyze] on the same engine, symbol and candle
    array, at two readings of the clock, either both raise the same
    exception or both return, and then the two results agree on the final
    signal, the aggregate confidence and the whole list of strategy
    signals (as well as on symbol and price); the timestamps are the two
    clock readings. *)
Theorem analyze_deterministic (self : SignalEngine) (symbol : string)
    (candles : ndarray2) (now1 now2 : Z) :
  match analyze self symbol candles now1,
        analyze self symbol candles now2 with
  | Ok r1, Ok r2 =>
      cs_signal r1 = cs_signal r2
      ∧ cs_confidence r1 = cs_confidence r2
      ∧ cs_strategies r1 = cs_strategies r2
      ∧ cs_symbol r1 = cs_symbol r2
      ∧ cs_price r1 = cs_price r2
      ∧ cs_timestamp r1 = now1
      ∧ cs_timestamp r2 = now2
  | Raise e1, Raise e2 => e1 = e2
  | _, _ => False
  end.
Proof.
  unfold analyze.
  destruct (item_last candles 4) as [price|e]; simpl; [|done].
  destruct (strategy_rsi_mean_reversion candles) as [s1|e]; simpl; [|done].
  destruct (strategy_golden_cross candles) as [s2|e]; simpl; [|done].
  destruct (strategy_macd candles) as [s3|e]; simpl; [|done].
  destruct (strategy_volume_breakout candles) as [s4|e]; simpl; [|done].
  unfold combine. by destruct (averages _).
Qed.

End determinism.

(* ===================================================================== *)
(** ** Slices as index ranges                                             *)
(* ===================================================================== *)

Lemma lookup_map {A B} (f : A → B) (l : list A) (i : nat) :
  map f l !! i = f <$> (l !! i).
Proof. exact (list_lookup_fmap f l i). Qed.

Lemma slice_nth (l : list R) (a b : nat) :
  (a <= b <= length l)%nat →
  drop a (take b l) = map (λ i, nth i l 0) (seq a (b - a)).
Proof.
  intros Hab. apply list_eq. intros i.
  rewrite lookup_drop, lookup_take, lookup_map.
  case_decide as Hi.
  - rewrite lookup_seq_lt by lia. simpl.
    destruct (nth_lookup_or_length l (a + i) 0) as [->|]; [done | lia].
  - rewrite lookup_seq_ge by lia. done.
Qed.

Lemma np_diff_nth (closes : list R) :
  np_diff closes = map (delta_at closes) (seq 0 (length closes - 1)).
Proof.
  apply list_eq. intros i. unfold np_diff.
  rewrite lookup_zip_with, lookup_drop, lookup_map.
  destruct (decide (S i < length closes)%nat) as [Hi|Hi].
  - rewrite lookup_seq_lt by lia. simpl. unfold delta_at.
    destruct (nth_lookup_or_length closes i 0) as [->|]; [|lia].
    destruct (nth_lookup_or_length closes (S i) 0) as [->|]; [|lia].
    done.
  - rewrite lookup_seq_ge by lia.
    rewrite (lookup_ge_None_2 closes (1 + i)) by lia.
    now destruct (closes !! i).
Qed.

(** The last [period] changes, once the gain or loss [f] is taken. *)
Lemma slice_last_diff (f : R → R) (closes : list R) (period : nat) :
  (0 < period)%nat → (period + 1 <= length closes)%nat →
  slice_last period (map f (np_diff closes))
  = map f (map (delta_at closes)
             (seq (length closes - 1 - period) period)).
Proof.
  intros Hp Hn. destruct period as [|p]; [lia|].
  unfold slice_last. rewrite length_map, np_diff_length, np_diff_nth.
  rewrite !skipn_map, skipn_seq. do 3 f_equal. lia.
Qed.

(** Their mean divides by [period]. *)
Lemma mean_last_changes (f g : R → R) (closes : list R) (period : nat) :
  (∀ d, f d = g d) →
  (0 < period)%nat → (period + 1 <= length closes)%nat →
  np_mean (slice_last period (map f (np_diff closes)))
  = np_sum (map g (map (delta_at closes)
                     (seq (length closes - 1 - period) period)))
    / INR period.
Proof.
  intros Hfg Hp Hn. rewrite slice_last_diff by done.
  unfold np_mean. rewrite !length_map, length_seq.
  f_equal. f_equal. apply map_ext. intros d. apply Hfg.
Qed.

Lemma gain_Rmax (d : R) : (if decide (d > 0) then d else 0) = Rmax d 0.
Proof. unfold Rmax. case_decide; destruct (Rle_dec d 0); lra. Qed.

Lemma loss_Rmax (d : R) : (if decide (d < 0) then - d else 0) = Rmax (- d) 0.
Proof. unfold Rmax. case_decide; destruct (Rle_dec (- d) 0); lra. Qed.

(* ===================================================================== *)
(** ** RSI                                                                *)
(* ===================================================================== *)

(** C4.  For a positive period, [calculate_rsi] is the RSI of the
    description: 50 on fewer than [period + 1] close prices (fewer than 15
    at the default period 14); otherwise, with the plain averages of gains
    and of losses over the last [period] changes, 100 when the average
    loss is 0 and 100 - 100 / (1 + avg_gain / avg_loss) when it is not. *)
Theorem calculate_rsi_spec (closes : list R) (period : nat) :
  (0 < period)%nat →
  calculate_rsi closes period = rsi_spec closes period
  ∧ ((length closes < period + 1)%nat → calculate_rsi closes period = 50)
  ∧ ((length closes < 15)%nat → calculate_rsi closes 14 = 50).
Proof.
  intros Hp. repeat split.
  - unfold calculate_rsi, rsi_spec.
    destruct (decide (length closes < period + 1)%nat) as [Hn|Hn]; [done|].
    rewrite (mean_last_changes (λ d, if decide (d > 0) then d else 0)
               (λ d, Rmax d 0))
      by first [intros; apply gain_Rmax | lia].
    rewrite (mean_last_changes (λ d, if decide (d < 0) then - d else 0)
               (λ d, Rmax (- d) 0))
      by first [intros; apply loss_Rmax | lia].
    done.
  - intros Hn. unfold calculate_rsi. case_decide; [done | lia].
  - intros Hn. unfold calculate_rsi. case_decide; [done | lia].
Qed.

(** C4 on the closes 1, 3, 2 with period 2: gains average 1, losses
    average 1/2, RSI = 100 - 100 / 3. *)
Lemma calculate_rsi_spec_witness :
  (0 < 2)%nat
  ∧ calculate_rsi [1; 3; 2] 2 = rsi_spec [1; 3; 2] 2
  ∧ rsi_spec [1; 3; 2] 2 = 100 - 100 / (1 + 2).
Proof.
  assert (Hp : (0 < 2)%nat) by lia.
  split; [exact Hp|].
  split; [exact (proj1 (calculate_rsi_spec [1; 3; 2] 2 Hp))|].
  unfold rsi_spec, delta_at, np_sum, Rmax. simpl.
  destruct (Rle_dec (3 - 1) 0); [lra|].
  destruct (Rle_dec (2 - 3) 0); [|lra].
  destruct (Rle_dec (- (3 - 1)) 0); [|lra].
  destruct (Rle_dec (- (2 - 3)) 0); [lra|].
  case_decide as Hz; [lra|].
  do 3 f_equal. field.
Defined.

(* ===================================================================== *)
(** ** Volume breakout: the two guarded divisions                         *)
(* ===================================================================== *)

Lemma item_m1_nth (v : list R) :
  v ≠ [] → item_m1 v = Ok (nth (length v - 1) v 0).
Proof.
  intros Hv. unfold item_m1. rewrite last_lookup.
  replace (Init.Nat.pred (length v)) with (length v - 1)%nat by lia.
  destruct (nth_lookup_or_length v (length v - 1) 0) as [->|Hl]; [done|].
  apply nonempty_length in Hv. lia.
Qed.

Lemma item_m2_nth (v : list R) :
  (2 <= length v)%nat → item_m2 v = Ok (nth (length v - 2) v 0).
Proof. intros Hv. unfold item_m2. case_decide; [done | lia]. Qed.

Lemma slice_m20_m1_mean (volumes : list R) :
  (20 <= length volumes)%nat →
  np_mean (slice_m20_m1 volumes) = previous19_mean volumes.
Proof.
  intros Hn. unfold slice_m20_m1, slice_but_last, previous19_mean.
  rewrite slice_nth by lia.
  replace (length volumes - 1 - (length volumes - 20))%nat with 19%nat by lia.
  unfold np_mean. rewrite length_map, length_seq.
  f_equal. rewrite INR_IZR_INZ. done.
Qed.

Lemma vol_ratio_of_spec (volumes : list R) :
  (20 <= length volumes)%nat →
  vol_ratio_of (nth (length volumes - 1) volumes 0)
    (np_mean (slice_m20_m1 volumes))
  = volume_ratio_spec volumes.
Proof.
  intros Hn. unfold vol_ratio_of, volume_ratio_spec.
  now rewrite slice_m20_m1_mean.
Qed.

Lemma price_change_of_spec (closes : list R) :
  (2 <= length closes)%nat →
  price_change_of closes = Ok (price_change_spec closes).
Proof.
  intros Hn. unfold price_change_of, price_change_spec.
  rewrite item_m2_nth by done. simpl.
  case_decide; [|done].
  rewrite item_m1_nth; [done|]. apply nonempty_length. lia.
Qed.

Section volume_breakout.

Context `{PyBuiltins}.

(** With 20 rows or more, the strategy returns, and its two indicators
    are the guarded quotients. *)
Lemma strategy_volume_breakout_indicators (candles : ndarray2) :
  (20 <= length (rows candles))%nat → (6 <= ncols candles)%nat →
  let closes := map (λ r, nth 4 r 0) (rows candles) in
  let volumes := map (λ r, nth 5 r 0) (rows candles) in
  ∃ s,
    strategy_volume_breakout candles = Ok s
    ∧ indicators s !! "vol_ratio"
      = Some (py_round (volume_ratio_spec volumes) 2)
    ∧ indicators s !! "price_change"
      = Some (py_round (price_change_spec closes * 100) 2).
Proof.
  intros Hn Hc closes volumes.
  assert (Hlc : length closes = length (rows candles))
    by apply length_map.
  assert (Hlv : length volumes = length (rows candles))
    by apply length_map.
  unfold strategy_volume_breakout. rewrite !column_ok by lia. simpl.
  fold closes volumes.
  destruct (decide (length volumes < 20)%nat) as [Hlt|_]; [lia|].
  rewrite item_m1_nth by (apply nonempty_length; lia). simpl.
  rewrite vol_ratio_of_spec by lia.
  rewrite price_change_of_spec by lia. simpl.
  repeat case_decide; eexists; (split; [reflexivity|]); simpl;
    rewrite lookup_insert_eq, lookup_insert_ne, lookup_insert_eq by done;
    done.
Qed.

(** C5 (amended).  In [strategy_volume_breakout], for every candle array
    with at least 20 rows: volumeRatio is currentVolume divided by the mean
    of the 19 volumes before it when that mean is positive, and 1.0 when
    the mean is zero or negative; priceChange is
    (lastClose - prevClose) / prevClose when prevClose is positive, and 0
    when prevClose is zero or negative; and the strategy returns (no
    exception).  On positive data the two guards are the ones C5 names. *)
Theorem volume_breakout_guarded_divisions (candles : ndarray2) :
  (20 <= length (rows candles))%nat → (6 <= ncols candles)%nat →
  ∃ closes volumes s,
    column candles 4 = Ok closes
    ∧ column candles 5 = Ok volumes
    ∧ strategy_volume_breakout candles = Ok s
    ∧ indicators s !! "vol_ratio"
      = Some (py_round (volume_ratio_spec volumes) 2)
    ∧ indicators s !! "price_change"
      = Some (py_round (price_change_spec closes * 100) 2)
    ∧ (previous19_mean volumes <= 0 → volume_ratio_spec volumes = 1)
    ∧ (nth (length closes - 2) closes 0 <= 0 → price_change_spec closes = 0)
    ∧ (0 <= previous19_mean volumes →
       volume_ratio_spec volumes = volume_ratio_claimed volumes)
    ∧ (0 <= nth (length closes - 2) closes 0 →
       price_change_spec closes = price_change_claimed closes).
Proof.
  intros Hn Hc.
  destruct (strategy_volume_breakout_indicators candles Hn Hc)
    as (s & Hs & Hv & Hp).
  eexists _, _, s. rewrite !column_ok by lia.
  repeat split; try done;
    unfold volume_ratio_spec, volume_ratio_claimed, price_change_spec,
      price_change_claimed;
    intros; repeat case_decide; (done || lra).
Qed.

End volume_breakout.

(** C5 (amended) on [negative_close_bars]. *)
Lemma volume_breakout_guarded_divisions_witness :
  ((20 <= length (rows negative_close_bars))%nat
   ∧ (6 <= ncols negative_close_bars)%nat)
  ∧ ∃ s,
      @strategy_volume_breakout plain_builtins negative_close_bars = Ok s
      ∧ indicators s !! "vol_ratio"
        = Some (volume_ratio_spec (replicate 20 10))
      ∧ indicators s !! "price_change"
        = Some (price_change_spec (replicate 18 1 ++ [-1; -2]) * 100).
Proof.
  assert (Hn : (20 <= length (rows negative_close_bars))%nat)
    by (simpl; lia).
  assert (Hc : (6 <= ncols negative_close_bars)%nat) by (simpl; lia).
  split; [split; assumption|].
  destruct (@volume_breakout_guarded_divisions plain_builtins
              negative_close_bars Hn Hc)
    as (closes & volumes & s & Hcl & Hvl & Hs & Hv & Hp & _).
  injection Hcl as <-. injection Hvl as <-.
  exists s. repeat split; assumption.
Defined.

(** C5 (counterexample).  On twenty bars whose last two closes are -1 and
    -2, the strategy reports a price change of 0, where the quotient that
    C5 prescribes for a non-zero previous close is 1 (100 percent).  And on
    binary64 numbers, nineteen volumes of 2^-600 followed by a volume of
    2^600, all finite and positive, give a volume ratio of +infinity. *)
Lemma volume_breakout_guards_counterexample :
  rectangular negative_close_bars
  ∧ (∃ s,
     @strategy_volume_breakout plain_builtins negative_close_bars = Ok s
     ∧ indicators s !! "price_change" = Some 0)
  ∧ price_change_claimed (replicate 18 1 ++ [-1; -2]) * 100 = 100
  ∧ forallb Binary64.finite_positive Binary64.tiny_then_huge = true
  ∧ Binary64.vol_ratio64 Binary64.tiny_then_huge = PrimFloat.infinity.
Proof.
  split; [|split; [|split; [|split]]].
  - unfold rectangular. simpl. repeat constructor.
  - assert (Hn : (20 <= length (rows negative_close_bars))%nat)
      by (simpl; lia).
    assert (Hc : (6 <= ncols negative_close_bars)%nat) by (simpl; lia).
    destruct (@strategy_volume_breakout_indicators plain_builtins
                negative_close_bars Hn Hc) as (s & Hs & _ & Hp).
    exists s. split; [done|]. rewrite Hp. simpl. f_equal.
    unfold price_change_spec. simpl. case_decide; lra.
  - unfold price_change_claimed. simpl. case_decide; [lra|]. field.
  - vm_compute. reflexivity.
  - vm_compute. reflexivity.
Qed.

(* ===================================================================== *)
(** ** Exponential moving average                                         *)
(* ===================================================================== *)

(** One more close moves a full-length EMA by one smoothing step. *)
Theorem calculate_ema_snoc (closes : list R) (period : nat) (ema price : R) :
  (period <= length closes)%nat →
  calculate_ema closes period = Ok ema →
  calculate_ema (closes ++ [price]) period
  = Ok (price * (2 / (INR period + 1))
        + ema * (1 - 2 / (INR period + 1))).
Proof.
  intros Hl. unfold calculate_ema.
  rewrite length_app. simpl.
  destruct (decide (length closes < period)%nat) as [|_]; [lia|].
  destruct (decide (length closes + 1 < period)%nat) as [|_]; [lia|].
  destruct closes as [|c0 rest]; [done|].
  intros [= <-]. simpl. now rewrite foldl_app.
Qed.

Lemma calculate_ema_snoc_witness :
  ((2 <= length [1; 3])%nat
   ∧ calculate_ema [1; 3] 2
     = Ok (3 * (2 / (INR 2 + 1)) + 1 * (1 - 2 / (INR 2 + 1))))
  ∧ calculate_ema ([1; 3] ++ [2]) 2
    = Ok (2 * (2 / (INR 2 + 1))
          + (3 * (2 / (INR 2 + 1)) + 1 * (1 - 2 / (INR 2 + 1)))
            * (1 - 2 / (INR 2 + 1))).
Proof.
  assert (Hl : (2 <= length [1; 3])%nat) by (simpl; lia).
  assert (He : calculate_ema [1; 3] 2
               = Ok (3 * (2 / (INR 2 + 1)) + 1 * (1 - 2 / (INR 2 + 1))))
    by reflexivity.
  split; [split; assumption|].
  exact (calculate_ema_snoc [1; 3] 2 _ 2 Hl He).
Defined.

(** [calculate_ema] fails exactly on the empty series, by IndexError. *)
Theorem calculate_ema_fails_iff_empty (closes : list R) (period : nat) :
  (closes = [] →
     calculate_ema closes period
     = Raise (IndexError 0 (if decide (0 < period)%nat then -1 else 0) 0))
  ∧ (closes ≠ [] → is_ok (calculate_ema closes period))
  ∧ (closes ≠ [] → (length closes < period)%nat →
     ∃ x, last closes = Some x ∧ calculate_ema closes period = Ok x).
Proof.
  repeat split.
  - intros ->. unfold calculate_ema. simpl.
    destruct period; repeat case_decide; (done || lia).
  - apply calculate_ema_ok.
  - intros Hne Hl. unfold calculate_ema, item_m1.
    destruct (last_is_Some closes Hne) as [x Hx].
    exists x. case_decide; [now rewrite Hx | lia].
Qed.

(* ===================================================================== *)
(** ** Means of bounded and of constant lists                             *)
(* ===================================================================== *)

Lemma np_mean_between (lo hi : R) (v : list R) :
  v ≠ [] → Forall (λ x, lo <= x <= hi) v → lo <= np_mean v <= hi.
Proof.
  intros Hne Hv. unfold np_mean.
  assert (Hs : lo * INR (length v) <= np_sum v <= hi * INR (length v)).
  { clear Hne. unfold np_sum. induction Hv as [|x v Hx _ IH].
    - simpl. lra.
    - change (length (x :: v)) with (S (length v)). rewrite S_INR.
      simpl. lra. }
  assert (Hn : 0 < INR (length v)).
  { apply lt_0_INR. now apply nonempty_length. }
  split.
  - apply Rmult_le_reg_r with (INR (length v)); [done|].
    unfold Rdiv. rewrite Rmult_assoc, Rinv_l by lra. lra.
  - apply Rmult_le_reg_r with (INR (length v)); [done|].
    unfold Rdiv. rewrite Rmult_assoc, Rinv_l by lra. lra.
Qed.

Lemma np_mean_constant (c : R) (v : list R) :
  v ≠ [] → Forall (λ x, x = c) v → np_mean v = c.
Proof.
  intros Hne Hv.
  assert (Hb : c <= np_mean v <= c).
  { apply np_mean_between; [done|].
    eapply Forall_impl; [exact Hv|]. intros x ->. lra. }
  lra.
Qed.

(* ===================================================================== *)
(** ** RSI at its extremes                                                *)
(* ===================================================================== *)

Lemma slice_last_map (f : R → R) (p : nat) (v : list R) :
  slice_last p (map f v) = map f (slice_last p v).
Proof.
  destruct p as [|p]; simpl; [done|]. now rewrite length_map, skipn_map.
Qed.

Lemma np_mean_pos (v : list R) :
  v ≠ [] → Forall (λ x, 0 < x) v → 0 < np_mean v.
Proof.
  intros Hne Hv. unfold np_mean.
  assert (Hs : 0 < np_sum v).
  { unfold np_sum. destruct Hv as [|x v Hx Hv]; [done|]. simpl.
    assert (0 <= foldr Rplus 0 v); [|lra].
    apply np_sum_nonneg. eapply Forall_impl; [exact Hv|].
    intros y Hy. simpl in Hy. lra. }
  apply Rdiv_lt_0_compat; [done|].
  apply lt_0_INR. now apply nonempty_length.
Qed.

Lemma trailing_changes_nonempty (closes : list R) (period : nat) :
  (1 <= period)%nat → (period + 1 <= length closes)%nat →
  slice_last period (np_diff closes) ≠ [].
Proof.
  intros Hp Hl. destruct period as [|p]; [lia|]. simpl.
  apply nonempty_length. rewrite length_drop, np_diff_length. lia.
Qed.

(** With no falling change among the last [period] ones (a flat series
    included), RSI is 100. *)
Theorem calculate_rsi_no_loss (closes : list R) (period : nat) :
  (1 <= period)%nat → (period + 1 <= length closes)%nat →
  Forall (λ d, 0 <= d) (slice_last period (np_diff closes)) →
  calculate_rsi closes period = 100.
Proof.
  intros Hp Hl Hd. unfold calculate_rsi.
  destruct (decide (length closes < period + 1)%nat) as [|_]; [lia|].
  rewrite (slice_last_map (λ d, if decide (d < 0) then - d else 0)).
  rewrite (np_mean_constant 0).
  - case_decide; [done | lra].
  - apply nonempty_length. rewrite length_map. apply nonempty_length.
    now apply trailing_changes_nonempty.
  - apply Forall_map. eapply Forall_impl; [exact Hd|].
    intros d Hd0. simpl in *. case_decide; lra.
Qed.

Lemma calculate_rsi_no_loss_witness :
  ((1 <= 2)%nat ∧ (2 + 1 <= length [1; 2; 2])%nat
   ∧ Forall (λ d, 0 <= d) (slice_last 2 (np_diff [1; 2; 2])))
  ∧ calculate_rsi [1; 2; 2] 2 = 100.
Proof.
  assert (Hp : (1 <= 2)%nat) by lia.
  assert (Hl : (2 + 1 <= length [1; 2; 2])%nat) by (simpl; lia).
  assert (Hd : Forall (λ d, 0 <= d) (slice_last 2 (np_diff [1; 2; 2])))
    by (simpl; repeat (apply Forall_cons_2; [lra|]); apply Forall_nil_2).
  split; [repeat split; assumption|].
  exact (calculate_rsi_no_loss [1; 2; 2] 2 Hp Hl Hd).
Defined.

(** When each of the last [period] changes is a fall, RSI is 0. *)
Theorem calculate_rsi_all_loss (closes : list R) (period : nat) :
  (1 <= period)%nat → (period + 1 <= length closes)%nat →
  Forall (λ d, d < 0) (slice_last period (np_diff closes)) →
  calculate_rsi closes period = 0.
Proof.
  intros Hp Hl Hd. unfold calculate_rsi.
  destruct (decide (length closes < period + 1)%nat) as [|_]; [lia|].
  pose proof (trailing_changes_nonempty closes period Hp Hl) as Hne.
  rewrite (slice_last_map (λ d, if decide (d > 0) then d else 0)).
  rewrite (slice_last_map (λ d, if decide (d < 0) then - d else 0)).
  rewrite (np_mean_constant 0
             (map (λ d, if decide (d > 0) then d else 0)
                  (slice_last period (np_diff closes)))).
  2:{ apply nonempty_length. rewrite length_map.
      now apply nonempty_length. }
  2:{ apply Forall_map. eapply Forall_impl; [exact Hd|].
      intros d Hd0. simpl in *. case_decide; lra. }
  assert (Hloss : 0 < np_mean
            (map (λ d, if decide (d < 0) then - d else 0)
                 (slice_last period (np_diff closes)))).
  { apply np_mean_pos.
    - apply nonempty_length. rewrite length_map.
      now apply nonempty_length.
    - apply Forall_map. eapply Forall_impl; [exact Hd|].
      intros d Hd0. simpl in *. case_decide; lra. }
  case_decide as Hz; [lra|].
  unfold Rdiv at 2. rewrite Rmult_0_l, Rplus_0_r. lra.
Qed.

Lemma calculate_rsi_all_loss_witness :
  ((1 <= 2)%nat ∧ (2 + 1 <= length [3; 2; 1])%nat
   ∧ Forall (λ d, d < 0) (slice_last 2 (np_diff [3; 2; 1])))
  ∧ calculate_rsi [3; 2; 1] 2 = 0.
Proof.
  assert (Hp : (1 <= 2)%nat) by lia.
  assert (Hl : (2 + 1 <= length [3; 2; 1])%nat) by (simpl; lia).
  assert (Hd : Forall (λ d, d < 0) (slice_last 2 (np_diff [3; 2; 1])))
    by (simpl; repeat (apply Forall_cons_2; [lra|]); apply Forall_nil_2).
  split; [repeat split; assumption|].
  exact (calculate_rsi_all_loss [3; 2; 1] 2 Hp Hl Hd).
Defined.

(* ===================================================================== *)
(** ** Shape of the four strategy signals                                 *)
(* ===================================================================== *)

Section strategy_shapes.

Context `{PyBuiltins}.

Lemma strategy_rsi_mean_reversion_shape (candles : ndarray2)
    (s : StrategySignal) :
  strategy_rsi_mean_reversion candles = Ok s →
  name s = "RSI Mean Reversion"
  ∧ (((signal s = STRONG_LONG ∨ signal s = STRONG_SHORT)
      ∧ 80 <= confidence s <= 100)
     ∨ ((signal s = LONG ∨ signal s = SHORT) ∧ 60 <= confidence s <= 95)
     ∨ (signal s = NEUTRAL ∧ confidence s = 50)).
Proof.
  unfold strategy_rsi_mean_reversion. intros Hs. inv_bind Hs.
  destruct a1 as [[bb_upper bb_mid] bb_lower].
  pose proof (calculate_rsi_bounds a 14) as Hrsi.
  repeat case_decide; inv_bind Hs; subst s; simpl;
    (split; [done|]); case_Rmin;
    first [ left; split; [solve [auto] | lra]
          | right; left; split; [solve [auto] | lra]
          | right; right; split; [done | lra] ].
Qed.

Lemma strategy_golden_cross_shape (candles : ndarray2)
    (s : StrategySignal) :
  strategy_golden_cross candles = Ok s →
  name s = "Golden Cross"
  ∧ (((signal s = LONG ∨ signal s = SHORT)
      ∧ (confidence s = 55 ∨ confidence s = 70))
     ∨ (signal s = NEUTRAL ∧ confidence s = 50)).
Proof.
  unfold strategy_golden_cross. intros Hs. inv_bind Hs.
  repeat case_decide; inv_bind Hs; subst s; simpl;
    (split; [done|]); solve [auto 6].
Qed.

Lemma strategy_macd_shape (candles : ndarray2) (s : StrategySignal) :
  strategy_macd candles = Ok s →
  name s = "MACD"
  ∧ (((signal s = LONG ∨ signal s = SHORT) ∧ 60 <= confidence s <= 90)
     ∨ (signal s = NEUTRAL ∧ confidence s = 50)).
Proof.
  unfold strategy_macd. intros Hs. inv_bind Hs.
  destruct a0 as [[macd_line signal_line] histogram].
  pose proof (Rabs_pos histogram) as Habs.
  repeat case_decide; inv_bind Hs; subst s; simpl;
    (split; [done|]); case_Rmin;
    first [ left; split; [solve [auto] | lra] | right; split; [done | lra] ].
Qed.

Lemma strategy_volume_breakout_shape (candles : ndarray2)
    (s : StrategySignal) :
  strategy_volume_breakout candles = Ok s →
  name s = "Volume Breakout"
  ∧ (((signal s = STRONG_LONG ∨ signal s = STRONG_SHORT)
      ∧ 85 <= confidence s <= 95)
     ∨ ((signal s = LONG ∨ signal s = SHORT) ∧ 67.5 <= confidence s <= 80)
     ∨ (signal s = NEUTRAL ∧ confidence s = 50)).
Proof.
  unfold strategy_volume_breakout. intros Hs. inv_bind Hs.
  case_decide.
  - inv_bind Hs. subst s. simpl. split; [done|]. right. right. done.
  - inv_bind Hs.
    repeat case_decide; inv_bind Hs; subst s; simpl;
      (split; [done|]); case_Rmin;
      first [ left; split; [solve [auto] | lra]
            | right; left; split; [solve [auto] | lra]
            | right; right; split; [done | lra] ].
Qed.

(** The confidence of each strategy is tied to the strength of its signal:
    RSI mean reversion reports 80 to 100 with a strong signal and 60 to 95
    with a plain one; golden cross only ever votes LONG, SHORT or NEUTRAL,
    at 55 or 70; MACD only LONG, SHORT or NEUTRAL, at 60 to 90; volume
    breakout reports 85 to 95 with a strong signal and 67.5 to 80 with a
    plain one; NEUTRAL always comes with exactly 50.  All ends are
    included. *)
Theorem strategy_confidence_bands (candles : ndarray2) :
  rows candles ≠ [] → (6 <= ncols candles)%nat →
  returns (strategy_rsi_mean_reversion candles)
    (λ s, ((signal s = STRONG_LONG ∨ signal s = STRONG_SHORT)
           ∧ 80 <= confidence s <= 100)
          ∨ ((signal s = LONG ∨ signal s = SHORT) ∧ 60 <= confidence s <= 95)
          ∨ (signal s = NEUTRAL ∧ confidence s = 50))
  ∧ returns (strategy_golden_cross candles)
      (λ s, ((signal s = LONG ∨ signal s = SHORT)
             ∧ (confidence s = 55 ∨ confidence s = 70))
            ∨ (signal s = NEUTRAL ∧ confidence s = 50))
  ∧ returns (strategy_macd candles)
      (λ s, ((signal s = LONG ∨ signal s = SHORT) ∧ 60 <= confidence s <= 90)
            ∨ (signal s = NEUTRAL ∧ confidence s = 50))
  ∧ returns (strategy_volume_breakout candles)
      (λ s, ((signal s = STRONG_LONG ∨ signal s = STRONG_SHORT)
             ∧ 85 <= confidence s <= 95)
            ∨ ((signal s = LONG ∨ signal s = SHORT)
               ∧ 67.5 <= confidence s <= 80)
            ∨ (signal s = NEUTRAL ∧ confidence s = 50)).
Proof.
  intros Hr Hc. repeat split.
  - destruct (strategy_rsi_mean_reversion_ok candles) as [s Hs];
      [done | lia |].
    exists s. split; [done|].
    exact (proj2 (strategy_rsi_mean_reversion_shape _ _ Hs)).
  - destruct (strategy_golden_cross_ok candles) as [s Hs]; [done | lia |].
    exists s. split; [done|].
    exact (proj2 (strategy_golden_cross_shape _ _ Hs)).
  - destruct (strategy_macd_ok candles) as [s Hs]; [done | lia |].
    exists s. split; [done|].
    exact (proj2 (strategy_macd_shape _ _ Hs)).
  - destruct (strategy_volume_breakout_ok candles) as [s Hs]; [done | lia |].
    exists s. split; [done|].
    exact (proj2 (strategy_volume_breakout_shape _ _ Hs)).
Qed.

End strategy_shapes.

(* ===================================================================== *)
(** ** Short histories                                                    *)
(* ===================================================================== *)

Lemma column_Ok_inv (a : ndarray2) (j : nat) (v : list R) :
  column a j = Ok v →
  v = map (λ r, nth j r 0) (rows a) ∧ length v = length (rows a).
Proof.
  unfold column. case_decide; [|done]. intros [= <-].
  split; [done | apply length_map].
Qed.

Lemma calculate_ema_short (closes : list R) (period : nat) (e : R) :
  (length closes < period)%nat →
  calculate_ema closes period = Ok e → item_m1 closes = Ok e.
Proof.
  intros Hl. unfold calculate_ema. case_decide; [done | lia].
Qed.

Lemma totals_all_neutral (self : SignalEngine) (l : list StrategySignal)
    (acc : totals) :
  Forall (λ s, signal s = NEUTRAL ∧ confidence s = 50) l →
  weighted_signal acc = 0 →
  weighted_confidence acc = 50 * total_weight acc →
  weighted_signal (foldl (accumulate self) acc l) = 0
  ∧ weighted_confidence (foldl (accumulate self) acc l)
    = 50 * total_weight (foldl (accumulate self) acc l).
Proof.
  intros Hl. revert acc.
  induction Hl as [|s l [Hs Hc] _ IH]; intros acc H1 H2; simpl; [done|].
  apply IH; unfold accumulate; cbn -[weight_of]; rewrite ?Hs, ?Hc; simpl;
    lra.
Qed.

Lemma combine_all_neutral (self : SignalEngine) (symbol : string)
    (price : R) (l : list StrategySignal) (now : Z) :
  Forall (λ s, signal s = NEUTRAL ∧ confidence s = 50) l →
  cs_signal (combine self symbol price l now) = NEUTRAL
  ∧ cs_confidence (combine self symbol price l now) = 50.
Proof.
  intros Hl. unfold combine.
  destruct (totals_all_neutral self l (mk_totals 0 0 0) Hl) as [Hs Hc];
    [done | simpl; lra |].
  set (t := foldl (accumulate self) (mk_totals 0 0 0) l) in *.
  unfold averages. case_decide as Hpos; simpl.
  - rewrite Hs, Hc. unfold Rdiv at 1. rewrite Rmult_0_l.
    split; [apply discretize_0|]. field. lra.
  - split; [apply discretize_0 | done].
Qed.

Section short_histories.

Context `{PyBuiltins}.

Lemma strategy_rsi_mean_reversion_short (candles : ndarray2)
    (s : StrategySignal) :
  (length (rows candles) < 20)%nat →
  strategy_rsi_mean_reversion candles = Ok s →
  signal s = NEUTRAL ∧ confidence s = 50.
Proof.
  intros Hl. unfold strategy_rsi_mean_reversion. intros Hs. inv_bind Hs.
  apply column_Ok_inv in Ha as [_ Hlen].
  unfold calculate_bollinger_bands in Ha1.
  destruct (decide (length a < 20)%nat) as [_|]; [|lia].
  rewrite Ha0 in Ha1. injection Ha1 as <-.
  repeat case_decide; inv_bind Hs; subst s; simpl;
    try lra; split; [done|]. unfold Rmin. destruct (Rle_dec 50 100); lra.
Qed.

Lemma strategy_golden_cross_short (candles : ndarray2)
    (s : StrategySignal) :
  (length (rows candles) < 8)%nat →
  strategy_golden_cross candles = Ok s →
  signal s = NEUTRAL ∧ confidence s = 50.
Proof.
  intros Hl. unfold strategy_golden_cross. intros Hs. inv_bind Hs.
  apply column_Ok_inv in Ha as [_ Hlen].
  apply calculate_ema_short in Ha0; [|lia].
  apply calculate_ema_short in Ha1; [|lia].
  assert (a0 = a1) as -> by congruence.
  repeat case_decide; inv_bind Hs; subst s; simpl; (done || lra).
Qed.

Lemma strategy_macd_short (candles : ndarray2) (s : StrategySignal) :
  (length (rows candles) < 12)%nat →
  strategy_macd candles = Ok s →
  signal s = NEUTRAL ∧ confidence s = 50.
Proof.
  intros Hl. unfold strategy_macd. intros Hs. inv_bind Hs.
  apply column_Ok_inv in Ha as [_ Hlen].
  destruct a0 as [[macd_line signal_line] histogram].
  apply calculate_macd_inv in Ha0 as (e12 & e26 & H12 & H26 & Hm & Hsl & Hh).
  apply calculate_ema_short in H12; [|lia].
  apply calculate_ema_short in H26; [|lia].
  assert (e12 = e26) as -> by congruence.
  repeat case_decide; inv_bind Hs; subst s; simpl;
    try lra; split; [done|]. unfold Rmin. destruct (Rle_dec 50 100); lra.
Qed.

Lemma strategy_volume_breakout_short (candles : ndarray2)
    (s : StrategySignal) :
  (length (rows candles) < 20)%nat →
  strategy_volume_breakout candles = Ok s →
  signal s = NEUTRAL ∧ confidence s = 50 ∧ indicators s = ∅.
Proof.
  intros Hl. unfold strategy_volume_breakout. intros Hs. inv_bind Hs.
  apply column_Ok_inv in Ha0 as [_ Hlen].
  destruct (decide (length a0 < 20)%nat) as [_|]; [|lia].
  inv_bind Hs. now subst s.
Qed.

(** Each strategy abstains on a short history: RSI mean reversion and
    volume breakout vote NEUTRAL at confidence 50 below 20 bars (volume
    breakout then reports no indicator at all), golden cross below 8 bars
    and MACD below 12. *)
Theorem strategies_abstain_on_short_history (candles : ndarray2) :
  rows candles ≠ [] → (6 <= ncols candles)%nat →
  ((length (rows candles) < 20)%nat →
     returns (strategy_rsi_mean_reversion candles)
       (λ s, signal s = NEUTRAL ∧ confidence s = 50))
  ∧ ((length (rows candles) < 8)%nat →
     returns (strategy_golden_cross candles)
       (λ s, signal s = NEUTRAL ∧ confidence s = 50))
  ∧ ((length (rows candles) < 12)%nat →
     returns (strategy_macd candles)
       (λ s, signal s = NEUTRAL ∧ confidence s = 50))
  ∧ ((length (rows candles) < 20)%nat →
     returns (strategy_volume_breakout candles)
       (λ s, signal s = NEUTRAL ∧ confidence s = 50 ∧ indicators s = ∅)).
Proof.
  intros Hr Hc. repeat split; intros Hl.
  - destruct (strategy_rsi_mean_reversion_ok candles) as [s Hs];
      [done | lia |].
    exists s. split; [done|].
    exact (strategy_rsi_mean_reversion_short _ _ Hl Hs).
  - destruct (strategy_golden_cross_ok candles) as [s Hs]; [done | lia |].
    exists s. split; [done|]. exact (strategy_golden_cross_short _ _ Hl Hs).
  - destruct (strategy_macd_ok candles) as [s Hs]; [done | lia |].
    exists s. split; [done|]. exact (strategy_macd_short _ _ Hl Hs).
  - destruct (strategy_volume_breakout_ok candles) as [s Hs]; [done | lia |].
    exists s. split; [done|].
    exact (strategy_volume_breakout_short _ _ Hl Hs).
Qed.

(** On fewer than 8 bars [analyze] returns NEUTRAL, from four NEUTRAL
    votes at confidence 50, whatever the weights (negative or zero ones
    included). *)
Theorem analyze_short_history_neutral (self : SignalEngine)
    (symbol : string) (candles : ndarray2) (now : Z) :
  rows candles ≠ [] → (length (rows candles) < 8)%nat →
  (6 <= ncols candles)%nat →
  returns (analyze self symbol candles now)
    (λ r, cs_signal r = NEUTRAL
          ∧ Forall (λ s, signal s = NEUTRAL ∧ confidence s = 50)
              (cs_strategies r)).
Proof.
  intros Hr Hl Hc.
  destruct (analyze_ok self symbol candles now Hr Hc) as [r Hres].
  exists r. split; [done|].
  apply analyze_Ok_inv in Hres
    as (price & s1 & s2 & s3 & s4 & _ & E1 & E2 & E3 & E4 & ->).
  assert (Hall : Forall (λ s, signal s = NEUTRAL ∧ confidence s = 50)
                   [s1; s2; s3; s4]).
  { apply Forall_cons_2.
    { apply (strategy_rsi_mean_reversion_short candles); [lia | done]. }
    apply Forall_cons_2.
    { apply (strategy_golden_cross_short candles); [lia | done]. }
    apply Forall_cons_2.
    { apply (strategy_macd_short candles); [lia | done]. }
    apply Forall_cons_2; [|apply Forall_nil_2].
    destruct (strategy_volume_breakout_short candles s4) as (? & ? & _);
      [lia | done | done]. }
  destruct (combine_all_neutral self symbol price _ now Hall) as [Hs Hcf].
  rewrite combine_strategies. done.
Qed.

End short_histories.

(** C10 (counterexample).  On [one_bar] the four strategies vote NEUTRAL
    at confidence 50.  On binary64 numbers, the loop and the averages of
    [analyze] on four such votes under the non-negative weights 0.1, 0.1,
    0.1 and 0.3 give a positive total weight (0.6000000000000001) and a
    composite confidence below 50 (49.999999999999993). *)
Lemma composite_confidence_below_50 :
  (returns (@strategy_rsi_mean_reversion plain_builtins one_bar)
     (λ s, signal s = NEUTRAL ∧ confidence s = 50)
   ∧ returns (@strategy_golden_cross plain_builtins one_bar)
       (λ s, signal s = NEUTRAL ∧ confidence s = 50)
   ∧ returns (@strategy_macd plain_builtins one_bar)
       (λ s, signal s = NEUTRAL ∧ confidence s = 50)
   ∧ returns (@strategy_volume_breakout plain_builtins one_bar)
       (λ s, signal s = NEUTRAL ∧ confidence s = 50))
  ∧ forallb (λ vote, PrimFloat.leb PrimFloat.zero vote.2)
      Binary64Engine.neutral_votes = true
  ∧ (let acc :=
       foldl Binary64Engine.accumulate64
         (PrimFloat.zero, PrimFloat.zero, PrimFloat.zero)
         Binary64Engine.neutral_votes in
     PrimFloat.ltb PrimFloat.zero acc.1.1 = true
     ∧ PrimFloat.ltb (Binary64Engine.averages64 acc).2
         Binary64Engine.fifty64 = true).
Proof.
  assert (Hr : rows one_bar ≠ []) by (simpl; discriminate).
  assert (H5 : (5 <= ncols one_bar)%nat) by (simpl; lia).
  assert (H6 : (6 <= ncols one_bar)%nat) by (simpl; lia).
  split; [|split; [|split]]; try (vm_compute; reflexivity).
  repeat split.
  - destruct (@strategy_rsi_mean_reversion_ok plain_builtins one_bar Hr H5)
      as [s Hs].
    exists s. split; [done|].
    apply (@strategy_rsi_mean_reversion_short plain_builtins one_bar); [simpl; lia | done].
  - destruct (@strategy_golden_cross_ok plain_builtins one_bar Hr H5)
      as [s Hs].
    exists s. split; [done|].
    apply (@strategy_golden_cross_short plain_builtins one_bar); [simpl; lia | done].
  - destruct (@strategy_macd_ok plain_builtins one_bar Hr H5) as [s Hs].
    exists s. split; [done|].
    apply (@strategy_macd_short plain_builtins one_bar); [simpl; lia | done].
  - destruct (@strategy_volume_breakout_ok plain_builtins one_bar Hr H6)
      as [s Hs].
    exists s. split; [done|].
    destruct (@strategy_volume_breakout_short plain_builtins one_bar s) as (? & ? & _);
      [simpl; lia | done | done].
Qed.

(* ===================================================================== *)
(** ** Direction of the golden cross                                      *)
(* ===================================================================== *)

Section golden_cross_direction.

Context `{PyBuiltins}.

(** The direction of the golden-cross vote is decided by the two current
    EMAs alone: LONG when the fast one is above the slow one, SHORT when
    it is below, NEUTRAL when they are equal.  The EMAs of the series
    without its last bar only choose between confidence 70 and 55. *)
Theorem golden_cross_follows_current_emas (candles : ndarray2) :
  rows candles ≠ [] → (5 <= ncols candles)%nat →
  ∃ closes fast_ema slow_ema,
    column candles 4 = Ok closes
    ∧ calculate_ema closes 8 = Ok fast_ema
    ∧ calculate_ema closes 21 = Ok slow_ema
    ∧ returns (strategy_golden_cross candles)
        (λ s, signal s = (if decide (fast_ema > slow_ema) then LONG
                          else if decide (fast_ema < slow_ema) then SHORT
                          else NEUTRAL)).
Proof.
  intros Hr Hc.
  set (closes := map (λ r, nth 4 r 0) (rows candles)).
  assert (Hcol : column candles 4 = Ok closes) by (apply column_ok; lia).
  assert (Hne : closes ≠ []).
  { apply nonempty_length. unfold closes. rewrite length_map.
    now apply nonempty_length. }
  destruct (calculate_ema_ok closes 8 Hne) as [fast Hf].
  destruct (calculate_ema_ok closes 21 Hne) as [slow Hsl].
  exists closes, fast, slow. repeat split; try done.
  unfold strategy_golden_cross. rewrite Hcol. simpl. rewrite Hf, Hsl. simpl.
  destruct (decide (1 < length closes)%nat) as [Hlen|Hlen]; simpl.
  - assert (Hp : slice_but_last closes ≠ []).
    { apply nonempty_length. rewrite slice_but_last_length. lia. }
    destruct (calculate_ema_ok _ 8 Hp) as [prev_fast ->].
    destruct (calculate_ema_ok _ 21 Hp) as [prev_slow ->]. simpl.
    repeat case_decide; eexists; (split; [reflexivity|]); simpl;
      (done || lra).
  - repeat case_decide; eexists; (split; [reflexivity|]); simpl;
      (done || lra).
Qed.

End golden_cross_direction.

(* ===================================================================== *)
(** ** The composite signal under given weights                           *)
(* ===================================================================== *)

Lemma averages_equal_weights (self : SignalEngine) (c : R)
    (s1 s2 s3 s4 : StrategySignal) :
  weight_of self s1 = c → weight_of self s2 = c →
  weight_of self s3 = c → weight_of self s4 = c →
  (averages (foldl (accumulate self) (mk_totals 0 0 0) [s1; s2; s3; s4])).1
  = if decide (c > 0) then (score s1 + score s2 + score s3 + score s4) / 4
    else 0.
Proof.
  intros H1 H2 H3 H4. cbn -[weight_of]. unfold accumulate.
  cbn -[weight_of]. rewrite H1, H2, H3, H4. unfold averages. simpl.
  destruct (decide (0 + c + c + c + c > 0)) as [Hp|Hp];
    destruct (decide (c > 0)) as [Hc|Hc]; simpl; try lra.
  unfold score. field. lra.
Qed.

Section composite_bounds.

Context `{PyBuiltins}.

(** When each of the four strategies counts 1.0 (the default engine),
    [analyze] never returns STRONG_LONG or STRONG_SHORT: the weighted
    average stays within (2 + 0.7 + 0.9 + 1.9) / 4 = 1.375 of zero, short
    of the threshold 1.5. *)
Theorem analyze_unit_weights_never_strong (self : SignalEngine)
    (symbol : string) (candles : ndarray2) (now : Z) :
  rows candles ≠ [] → (6 <= ncols candles)%nat →
  default (default_weight self) (weights self !! "RSI Mean Reversion") = 1 →
  default (default_weight self) (weights self !! "Golden Cross") = 1 →
  default (default_weight self) (weights self !! "MACD") = 1 →
  default (default_weight self) (weights self !! "Volume Breakout") = 1 →
  returns (analyze self symbol candles now)
    (λ r, cs_signal r ≠ STRONG_LONG ∧ cs_signal r ≠ STRONG_SHORT).
Proof.
  intros Hr Hc W1 W2 W3 W4.
  destruct (analyze_ok self symbol candles now Hr Hc) as [r Hres].
  exists r. split; [done|].
  apply analyze_Ok_inv in Hres
    as (price & s1 & s2 & s3 & s4 & _ & E1 & E2 & E3 & E4 & ->).
  apply strategy_rsi_mean_reversion_shape in E1 as [N1 S1].
  apply strategy_golden_cross_shape in E2 as [N2 S2].
  apply strategy_macd_shape in E3 as [N3 S3].
  apply strategy_volume_breakout_shape in E4 as [N4 S4].
  assert (B1 : -2 <= score s1 <= 2).
  { unfold score.
    destruct S1 as [[[-> | ->] ?] | [[[-> | ->] ?] | [-> ?]]]; simpl; lra. }
  assert (B2 : -0.7 <= score s2 <= 0.7).
  { unfold score.
    destruct S2 as [[[-> | ->] [-> | ->]] | [-> ?]]; simpl; lra. }
  assert (B3 : -0.9 <= score s3 <= 0.9).
  { unfold score. destruct S3 as [[[-> | ->] ?] | [-> ?]]; simpl; lra. }
  assert (B4 : -1.9 <= score s4 <= 1.9).
  { unfold score.
    destruct S4 as [[[-> | ->] ?] | [[[-> | ->] ?] | [-> ?]]]; simpl; lra. }
  assert (Hsig : cs_signal (combine self symbol price [s1; s2; s3; s4] now)
                 = discretize (averages (foldl (accumulate self)
                     (mk_totals 0 0 0) [s1; s2; s3; s4])).1).
  { unfold combine. now destruct (averages _). }
  rewrite Hsig, (averages_equal_weights self 1).
  2-5: unfold weight_of; congruence.
  unfold discretize. repeat case_decide; split; (done || lra).
Qed.

(** An entry of the weight table under a name that is not one of the four
    strategy names has no effect on the result. *)
Theorem analyze_ignores_unknown_weights (m : gmap string R) (k : string)
    (x : R) (symbol : string) (candles : ndarray2) (now : Z) :
  k ≠ "RSI Mean Reversion" → k ≠ "Golden Cross" → k ≠ "MACD" →
  k ≠ "Volume Breakout" →
  analyze (SignalEngine_init (Some (<[k := x]> m))) symbol candles now
  = analyze (SignalEngine_init (Some m)) symbol candles now.
Proof.
  intros K1 K2 K3 K4. unfold analyze.
  destruct (item_last candles 4) as [price|e]; simpl; [|done].
  destruct (strategy_rsi_mean_reversion candles) as [s1|e] eqn:E1;
    simpl; [|done].
  destruct (strategy_golden_cross candles) as [s2|e] eqn:E2; simpl; [|done].
  destruct (strategy_macd candles) as [s3|e] eqn:E3; simpl; [|done].
  destruct (strategy_volume_breakout candles) as [s4|e] eqn:E4;
    simpl; [|done].
  apply strategy_rsi_mean_reversion_shape in E1 as [N1 _].
  apply strategy_golden_cross_shape in E2 as [N2 _].
  apply strategy_macd_shape in E3 as [N3 _].
  apply strategy_volume_breakout_shape in E4 as [N4 _].
  f_equal. unfold combine. simpl. unfold accumulate, weight_of. simpl.
  rewrite N1, N2, N3, N4.
  rewrite !lookup_insert_ne by done. done.
Qed.

End composite_bounds.

(* ===================================================================== *)
(** ** The alert projection                                               *)
(* ===================================================================== *)

Lemma side_map_inj (s1 s2 : SignalType) :
  side_map s1 = side_map s2 → s1 = s2.
Proof. destruct s1, s2; simpl; (done || discriminate). Qed.

Lemma join_eq_empty (sep : string) (l : list string) :
  Forall (λ x, x ≠ "") l → join sep l = "" → l = [].
Proof.
  intros Hl. destruct Hl as [|x l Hx _]; [done|]. simpl.
  destruct x as [|a x]; [done|].
  destruct l; simpl; discriminate.
Qed.

Lemma filter_non_neutral_nil (l : list StrategySignal) :
  filter (λ s, signal s ≠ NEUTRAL) l = []
  ↔ Forall (λ s, signal s = NEUTRAL) l.
Proof.
  induction l as [|s l IH]; [by split|].
  rewrite filter_cons. case_decide as Hs; split.
  - discriminate.
  - intros [Hn _]%Forall_cons. done.
  - intros Hf. apply Forall_cons_2; [|by apply IH].
    destruct (decide (signal s = NEUTRAL)); [done|]. by destruct Hs.
  - intros [_ Hl]%Forall_cons. by apply IH.
Qed.

Lemma item_last_column (candles : ndarray2) (closes : list R) (price : R) :
  item_last candles 4 = Ok price → column candles 4 = Ok closes →
  item_m1 closes = Ok price.
Proof.
  unfold item_last, column, item_m1. intros Hp Hc.
  case_decide; [|done]. injection Hc as <-.
  change (map (λ r, nth 4 r 0) (rows candles))
    with ((λ r, nth 4 r 0) <$> rows candles).
  rewrite fmap_last. destruct (last (rows candles)); simpl; [|done].
  now injection Hp as <-.
Qed.

Section alert_projection.

Context `{PyBuiltins} `{PyRoundInt}.

Lemma strategy_rsi_mean_reversion_rsi (candles : ndarray2)
    (closes : list R) (s : StrategySignal) :
  column candles 4 = Ok closes →
  strategy_rsi_mean_reversion candles = Ok s →
  indicators s !! "rsi" = Some (py_round (calculate_rsi closes 14) 2).
Proof.
  intros Hc. unfold strategy_rsi_mean_reversion. rewrite Hc. simpl.
  intros Hs. inv_bind Hs.
  destruct a0 as [[bb_upper bb_mid] bb_lower].
  repeat case_decide; inv_bind Hs; subst s; simpl;
    now rewrite lookup_insert_eq.
Qed.

(** Two composite signals with the same side label have the same signal:
    the five labels are distinct. *)
Theorem alert_side_determines_signal (c1 c2 : CompositeSignal) :
  ad_side (to_alert_dict c1) = ad_side (to_alert_dict c2) →
  cs_signal c1 = cs_signal c2.
Proof. apply side_map_inj. Qed.

(** The alert of an analysis made with each strategy counting 1.0 (the
    default engine; the composite confidence is then a finite number, on
    which [round] does not fail): the symbol is the one analysed, the
    price is the last close, the RSI is always present and is the rounded
    14-period RSI of the closes, and the list of strategy names is empty
    exactly when all four strategies voted NEUTRAL. *)
Theorem alert_of_analysis (self : SignalEngine) (symbol : string)
    (candles : ndarray2) (now : Z) :
  rows candles ≠ [] → (6 <= ncols candles)%nat →
  default (default_weight self) (weights self !! "RSI Mean Reversion") = 1 →
  default (default_weight self) (weights self !! "Golden Cross") = 1 →
  default (default_weight self) (weights self !! "MACD") = 1 →
  default (default_weight self) (weights self !! "Volume Breakout") = 1 →
  ∃ closes,
    column candles 4 = Ok closes
    ∧ returns (analyze self symbol candles now)
        (λ r, ad_symbol (to_alert_dict r) = symbol
              ∧ item_m1 closes = Ok (ad_price (to_alert_dict r))
              ∧ ad_rsi (to_alert_dict r)
                = Some (py_round (calculate_rsi closes 14) 2)
              ∧ (ad_strategy (to_alert_dict r) = ""
                 ↔ Forall (λ s, signal s = NEUTRAL) (cs_strategies r))).
Proof.
  intros Hr Hc _ _ _ _.
  exists (map (λ r, nth 4 r 0) (rows candles)).
  assert (Hcol : column candles 4
                 = Ok (map (λ r, nth 4 r 0) (rows candles)))
    by (apply column_ok; lia).
  split; [done|].
  destruct (analyze_ok self symbol candles now Hr Hc) as [r Hres].
  exists r. split; [done|].
  apply analyze_Ok_inv in Hres
    as (price & s1 & s2 & s3 & s4 & Hp & E1 & E2 & E3 & E4 & ->).
  pose proof (strategy_rsi_mean_reversion_rsi _ _ _ Hcol E1) as Hrsi.
  apply strategy_rsi_mean_reversion_shape in E1 as [N1 _].
  apply strategy_golden_cross_shape in E2 as [N2 _].
  apply strategy_macd_shape in E3 as [N3 _].
  apply strategy_volume_breakout_shape in E4 as [N4 _].
  unfold to_alert_dict. rewrite combine_strategies.
  unfold combine. destruct (averages _) as [avg_signal avg_confidence].
  simpl. repeat split.
  - exact (item_last_column _ _ _ Hp Hcol).
  - unfold first_rsi. rewrite filter_cons_True by (rewrite Hrsi; by eexists).
    exact Hrsi.
  - intros Hj. apply filter_non_neutral_nil.
    apply join_eq_empty in Hj.
    + destruct (filter _ _); [done | discriminate].
    + apply Forall_map. apply Forall_forall. intros s Hs.
      apply list_elem_of_filter in Hs as [_ Hs].
      simpl. set_unfold in Hs.
      destruct Hs as [-> | [-> | [-> | [-> | []]]]]; congruence.
  - intros Hn. apply filter_non_neutral_nil in Hn. now rewrite Hn.
Qed.

(** On fewer than 8 bars, with each strategy counting 1.0 (the default
    engine), the alert says HOLD, names no strategy and carries the
    rounding of 50 as its confidence. *)
Theorem alert_on_short_history (self : SignalEngine) (symbol : string)
    (candles : ndarray2) (now : Z) :
  rows candles ≠ [] → (length (rows candles) < 8)%nat →
  (6 <= ncols candles)%nat →
  default (default_weight self) (weights self !! "RSI Mean Reversion") = 1 →
  default (default_weight self) (weights self !! "Golden Cross") = 1 →
  default (default_weight self) (weights self !! "MACD") = 1 →
  default (default_weight self) (weights self !! "Volume Breakout") = 1 →
  returns (analyze self symbol candles now)
    (λ r, ad_side (to_alert_dict r) = "HOLD"
          ∧ ad_strategy (to_alert_dict r) = ""
          ∧ ad_confidence (to_alert_dict r) = py_round_int 50).
Proof.
  intros Hr Hl Hc _ _ _ _.
  destruct (analyze_ok self symbol candles now Hr Hc) as [r Hres].
  exists r. split; [done|].
  apply analyze_Ok_inv in Hres
    as (price & s1 & s2 & s3 & s4 & _ & E1 & E2 & E3 & E4 & ->).
  assert (Hall : Forall (λ s, signal s = NEUTRAL ∧ confidence s = 50)
                   [s1; s2; s3; s4]).
  { apply Forall_cons_2.
    { apply (strategy_rsi_mean_reversion_short candles); [lia | done]. }
    apply Forall_cons_2.
    { apply (strategy_golden_cross_short candles); [lia | done]. }
    apply Forall_cons_2.
    { apply (strategy_macd_short candles); [lia | done]. }
    apply Forall_cons_2; [|apply Forall_nil_2].
    destruct (strategy_volume_breakout_short candles s4) as (? & ? & _);
      [lia | done | done]. }
  destruct (combine_all_neutral self symbol price _ now Hall) as [Hs Hcf].
  unfold to_alert_dict. rewrite Hs, Hcf, combine_strategies.
  repeat split.
  assert (Hf : filter (λ s, signal s ≠ NEUTRAL) [s1; s2; s3; s4] = []).
  { apply filter_non_neutral_nil. eapply Forall_impl; [exact Hall|].
    now intros s [? _]. }
  now rewrite Hf.
Qed.

End alert_projection.

(* ===================================================================== *)
(** ** The properties above on concrete inputs                            *)
(* ===================================================================== *)

Lemma one_bar_rows : rows one_bar ≠ [].
Proof. simpl. discriminate. Defined.

Lemma one_bar_ncols : (6 <= ncols one_bar)%nat.
Proof. simpl. lia. Defined.

Lemma one_bar_short (n : nat) :
  (2 <= n)%nat → (length (rows one_bar) < n)%nat.
Proof. simpl. lia. Defined.

Lemma twelve_bars_rows : rows twelve_bars ≠ [].
Proof. simpl. discriminate. Defined.

Lemma twelve_bars_ncols : (6 <= ncols twelve_bars)%nat.
Proof. simpl. lia. Defined.

Lemma strategy_confidence_bands_witness :
  (rows twelve_bars ≠ [] ∧ (6 <= ncols twelve_bars)%nat)
  ∧ returns (@strategy_rsi_mean_reversion plain_builtins twelve_bars)
      (λ s, ((signal s = STRONG_LONG ∨ signal s = STRONG_SHORT)
             ∧ 80 <= confidence s <= 100)
            ∨ ((signal s = LONG ∨ signal s = SHORT)
               ∧ 60 <= confidence s <= 95)
            ∨ (signal s = NEUTRAL ∧ confidence s = 50))
  ∧ returns (@strategy_golden_cross plain_builtins twelve_bars)
      (λ s, ((signal s = LONG ∨ signal s = SHORT)
             ∧ (confidence s = 55 ∨ confidence s = 70))
            ∨ (signal s = NEUTRAL ∧ confidence s = 50))
  ∧ returns (@strategy_macd plain_builtins twelve_bars)
      (λ s, ((signal s = LONG ∨ signal s = SHORT) ∧ 60 <= confidence s <= 90)
            ∨ (signal s = NEUTRAL ∧ confidence s = 50))
  ∧ returns (@strategy_volume_breakout plain_builtins twelve_bars)
      (λ s, ((signal s = STRONG_LONG ∨ signal s = STRONG_SHORT)
             ∧ 85 <= confidence s <= 95)
            ∨ ((signal s = LONG ∨ signal s = SHORT)
               ∧ 67.5 <= confidence s <= 80)
            ∨ (signal s = NEUTRAL ∧ confidence s = 50)).
Proof.
  split; [split; [exact twelve_bars_rows | exact twelve_bars_ncols]|].
  exact (@strategy_confidence_bands plain_builtins twelve_bars
           twelve_bars_rows twelve_bars_ncols).
Defined.

Lemma strategies_abstain_on_short_history_witness :
  (rows one_bar ≠ [] ∧ (6 <= ncols one_bar)%nat)
  ∧ returns (@strategy_macd plain_builtins one_bar)
      (λ s, signal s = NEUTRAL ∧ confidence s = 50).
Proof.
  split; [split; [exact one_bar_rows | exact one_bar_ncols]|].
  apply (proj1 (proj2 (proj2 (@strategies_abstain_on_short_history
                                plain_builtins one_bar
                                one_bar_rows one_bar_ncols)))).
  apply one_bar_short. lia.
Defined.

Lemma analyze_short_history_neutral_witness :
  (rows one_bar ≠ [] ∧ (length (rows one_bar) < 8)%nat
   ∧ (6 <= ncols one_bar)%nat)
  ∧ returns (@analyze plain_builtins (SignalEngine_init None) "XXBTZUSD"
               one_bar 0)
      (λ r, cs_signal r = NEUTRAL
            ∧ Forall (λ s, signal s = NEUTRAL ∧ confidence s = 50)
                (cs_strategies r)).
Proof.
  assert (Hl : (length (rows one_bar) < 8)%nat) by (apply one_bar_short; lia).
  split; [repeat split; [exact one_bar_rows | exact Hl | exact one_bar_ncols]|].
  exact (@analyze_short_history_neutral plain_builtins
           (SignalEngine_init None) "XXBTZUSD" one_bar 0
           one_bar_rows Hl one_bar_ncols).
Defined.

Lemma golden_cross_follows_current_emas_witness :
  (rows one_bar ≠ [] ∧ (5 <= ncols one_bar)%nat)
  ∧ ∃ closes fast_ema slow_ema,
      column one_bar 4 = Ok closes
      ∧ calculate_ema closes 8 = Ok fast_ema
      ∧ calculate_ema closes 21 = Ok slow_ema
      ∧ returns (@strategy_golden_cross plain_builtins one_bar)
          (λ s, signal s = (if decide (fast_ema > slow_ema) then LONG
                            else if decide (fast_ema < slow_ema) then SHORT
                            else NEUTRAL)).
Proof.
  assert (Hc : (5 <= ncols one_bar)%nat) by (simpl; lia).
  split; [split; [exact one_bar_rows | exact Hc]|].
  exact (@golden_cross_follows_current_emas plain_builtins one_bar
           one_bar_rows Hc).
Defined.

Lemma default_weight_of_name (n : string) :
  default (default_weight (SignalEngine_init None))
    (weights (SignalEngine_init None) !! n) = 1.
Proof. simpl. now rewrite lookup_empty. Defined.

Lemma analyze_unit_weights_never_strong_witness :
  (rows one_bar ≠ [] ∧ (6 <= ncols one_bar)%nat)
  ∧ returns (@analyze plain_builtins (SignalEngine_init None) "XXBTZUSD"
               one_bar 0)
      (λ r, cs_signal r ≠ STRONG_LONG ∧ cs_signal r ≠ STRONG_SHORT).
Proof.
  split; [split; [exact one_bar_rows | exact one_bar_ncols]|].
  exact (@analyze_unit_weights_never_strong plain_builtins
           (SignalEngine_init None) "XXBTZUSD" one_bar 0
           one_bar_rows one_bar_ncols
           (default_weight_of_name _) (default_weight_of_name _)
           (default_weight_of_name _) (default_weight_of_name _)).
Defined.

Lemma analyze_ignores_unknown_weights_witness :
  ("Momentum" ≠ "RSI Mean Reversion" ∧ "Momentum" ≠ "Golden Cross"
   ∧ "Momentum" ≠ "MACD" ∧ "Momentum" ≠ "Volume Breakout")
  ∧ @analyze plain_builtins (SignalEngine_init (Some (<["Momentum" := 5]> ∅)))
      "XXBTZUSD" one_bar 0
    = @analyze plain_builtins (SignalEngine_init (Some ∅)) "XXBTZUSD"
        one_bar 0.
Proof.
  assert (K1 : "Momentum" ≠ "RSI Mean Reversion") by discriminate.
  assert (K2 : "Momentum" ≠ "Golden Cross") by discriminate.
  assert (K3 : "Momentum" ≠ "MACD") by discriminate.
  assert (K4 : "Momentum" ≠ "Volume Breakout") by discriminate.
  split; [repeat split; assumption|].
  exact (@analyze_ignores_unknown_weights plain_builtins ∅ "Momentum" 5
           "XXBTZUSD" one_bar 0 K1 K2 K3 K4).
Defined.

Lemma alert_side_determines_signal_witness :
  @ad_side
    (@to_alert_dict floor_round
       (mk_CompositeSignal "XXBTZUSD" 1 LONG 60 scenario_votes 0))
  = @ad_side
      (@to_alert_dict floor_round
         (mk_CompositeSignal "XETHZUSD" 2 LONG 70 [] 5))
  ∧ cs_signal (mk_CompositeSignal "XXBTZUSD" 1 LONG 60 scenario_votes 0)
    = cs_signal (mk_CompositeSignal "XETHZUSD" 2 LONG 70 [] 5).
Proof.
  assert (Hs : @ad_side
                 (@to_alert_dict floor_round
                    (mk_CompositeSignal "XXBTZUSD" 1 LONG 60
                       scenario_votes 0))
               = @ad_side
                   (@to_alert_dict floor_round
                      (mk_CompositeSignal "XETHZUSD" 2 LONG 70 [] 5)))
    by reflexivity.
  split; [exact Hs|].
  exact (@alert_side_determines_signal floor_round _ _ Hs).
Defined.

Lemma alert_of_analysis_witness :
  (rows one_bar ≠ [] ∧ (6 <= ncols one_bar)%nat)
  ∧ ∃ closes,
      column one_bar 4 = Ok closes
      ∧ returns (@analyze plain_builtins (SignalEngine_init None)
                   "XXBTZUSD" one_bar 0)
          (λ r, @ad_symbol (@to_alert_dict floor_round r) = "XXBTZUSD"
                ∧ item_m1 closes
                  = Ok (@ad_price (@to_alert_dict floor_round r))
                ∧ @ad_rsi (@to_alert_dict floor_round r)
                  = Some (@py_round plain_builtins
                            (calculate_rsi closes 14) 2)
                ∧ (@ad_strategy (@to_alert_dict floor_round r) = ""
                   ↔ Forall (λ s, signal s = NEUTRAL) (cs_strategies r))).
Proof.
  split; [split; [exact one_bar_rows | exact one_bar_ncols]|].
  exact (@alert_of_analysis plain_builtins floor_round
           (SignalEngine_init None) "XXBTZUSD" one_bar 0
           one_bar_rows one_bar_ncols
           (default_weight_of_name _) (default_weight_of_name _)
           (default_weight_of_name _) (default_weight_of_name _)).
Defined.

Lemma alert_on_short_history_witness :
  (rows one_bar ≠ [] ∧ (length (rows one_bar) < 8)%nat
   ∧ (6 <= ncols one_bar)%nat)
  ∧ returns (@analyze plain_builtins (SignalEngine_init None) "XXBTZUSD"
               one_bar 0)
      (λ r, @ad_side (@to_alert_dict floor_round r) = "HOLD"
            ∧ @ad_strategy (@to_alert_dict floor_round r) = ""
            ∧ @ad_confidence (@to_alert_dict floor_round r)
              = @py_round_int floor_round 50).
Proof.
  assert (Hl : (length (rows one_bar) < 8)%nat) by (apply one_bar_short; lia).
  split; [repeat split; [exact one_bar_rows | exact Hl | exact one_bar_ncols]|].
  exact (@alert_on_short_history plain_builtins floor_round
           (SignalEngine_init None) "XXBTZUSD" one_bar 0
           one_bar_rows Hl one_bar_ncols
           (default_weight_of_name _) (default_weight_of_name _)
           (default_weight_of_name _) (default_weight_of_name _)).
Defined.

(* ===================================================================== *)
(** ** What a volume-breakout vote requires                               *)
(* ===================================================================== *)

Section volume_breakout_direction.

Context `{PyBuiltins}.

(** With 20 bars or more, a long vote of the volume strategy requires a
    price change above 0.5 percent and a volume above 1.5 times the mean
    of the 19 before it, a short vote a price change below -0.5 percent
    and the same volume, and a strong vote 1 percent and twice the mean.
    In particular the strategy abstains whenever the previous close, or
    the mean of the previous volumes, is zero or negative. *)
Theorem volume_breakout_vote_requires (candles : ndarray2) :
  (20 <= length (rows candles))%nat → (6 <= ncols candles)%nat →
  let closes := map (λ r, nth 4 r 0) (rows candles) in
  let volumes := map (λ r, nth 5 r 0) (rows candles) in
  let change := price_change_spec closes in
  let ratio := volume_ratio_spec volumes in
  returns (strategy_volume_breakout candles)
    (λ s, (signal s = STRONG_LONG → ratio > 2 ∧ change > 0.01)
          ∧ (signal s = LONG → ratio > 1.5 ∧ change > 0.005)
          ∧ (signal s = STRONG_SHORT → ratio > 2 ∧ change < -0.01)
          ∧ (signal s = SHORT → ratio > 1.5 ∧ change < -0.005)
          ∧ (nth (length closes - 2) closes 0 <= 0 → signal s = NEUTRAL)
          ∧ (previous19_mean volumes <= 0 → signal s = NEUTRAL)).
Proof.
  intros Hn Hc closes volumes change ratio.
  assert (Hlc : length closes = length (rows candles))
    by apply length_map.
  assert (Hlv : length volumes = length (rows candles))
    by apply length_map.
  assert (Hprev : nth (length closes - 2) closes 0 <= 0 → change = 0).
  { intros Hp. unfold change, price_change_spec. case_decide; [lra | done]. }
  assert (Hmean : previous19_mean volumes <= 0 → ratio = 1).
  { intros Hp. unfold ratio, volume_ratio_spec. case_decide; [lra | done]. }
  unfold strategy_volume_breakout. rewrite !column_ok by lia. simpl.
  fold closes volumes.
  destruct (decide (length volumes < 20)%nat) as [Hlt|_]; [lia|].
  rewrite item_m1_nth by (apply nonempty_length; lia). simpl.
  rewrite vol_ratio_of_spec by lia.
  rewrite price_change_of_spec by lia. simpl.
  fold change ratio.
  repeat case_decide; eexists; (split; [reflexivity|]); simpl;
    repeat split; intros; try done; try lra;
    match goal with
    | Hp : nth _ closes 0 <= 0 |- _ => specialize (Hprev Hp); exfalso; lra
    | Hp : previous19_mean volumes <= 0 |- _ =>
        specialize (Hmean Hp); exfalso; lra
    end.
Qed.

End volume_breakout_direction.

Lemma volume_breakout_vote_requires_witness :
  ((20 <= length (rows negative_close_bars))%nat
   ∧ (6 <= ncols negative_close_bars)%nat)
  ∧ returns (@strategy_volume_breakout plain_builtins negative_close_bars)
      (λ s, signal s = NEUTRAL).
Proof.
  assert (Hn : (20 <= length (rows negative_close_bars))%nat)
    by (simpl; lia).
  assert (Hc : (6 <= ncols negative_close_bars)%nat) by (simpl; lia).
  split; [split; assumption|].
  destruct (@volume_breakout_vote_requires plain_builtins
              negative_close_bars Hn Hc)
    as (s & Hs & _ & _ & _ & _ & Hprev & _).
  exists s. split; [exact Hs|]. apply Hprev. simpl. lra.
Defined.

(* ===================================================================== *)
(** ** Direction of the composite signal                                  *)
(* ===================================================================== *)

Lemma accumulate_signal_sign (self : SignalEngine)
    (l : list StrategySignal) (acc : totals) :
  nonneg_weights self →
  Forall (λ s, 0 <= confidence s) l →
  (Forall (λ s, (value (signal s) <= 0)%Z) l → weighted_signal acc <= 0 →
   weighted_signal (foldl (accumulate self) acc l) <= 0)
  ∧ (Forall (λ s, (0 <= value (signal s))%Z) l → 0 <= weighted_signal acc →
     0 <= weighted_signal (foldl (accumulate self) acc l)).
Proof.
  intros Hw Hc. revert acc.
  induction Hc as [|s l Hs _ IH]; intros acc; simpl; [done|].
  pose proof (weight_of_nonneg self s Hw) as Hws.
  split; intros [Hv Hl]%Forall_cons Hacc.
  - apply IH; [done|]. unfold accumulate. simpl.
    apply IZR_le in Hv. simpl in Hv.
    assert (IZR (value (signal s)) * weight_of self s
            * (confidence s / 100) <= 0); [|lra].
    assert (0 <= weight_of self s * (confidence s / 100)) by nra. nra.
  - apply IH; [done|]. unfold accumulate. simpl.
    apply IZR_le in Hv. simpl in Hv.
    assert (0 <= IZR (value (signal s)) * weight_of self s
                 * (confidence s / 100)); [|lra].
    assert (0 <= weight_of self s * (confidence s / 100)) by nra. nra.
Qed.

Section weights.

Context `{PyBuiltins}.

(** The composite signal never points where no strategy does: for a table
    of non-negative weights, if no strategy votes long the result is not
    LONG or STRONG_LONG, and if none votes short it is not SHORT or
    STRONG_SHORT. *)
Theorem analyze_direction_needs_a_vote (w : option (gmap string R))
    (symbol : string) (candles : ndarray2) (now : Z) :
  rows candles ≠ [] → (6 <= ncols candles)%nat → nonneg_table w →
  returns (analyze (SignalEngine_init w) symbol candles now)
    (λ r, (Forall (λ s, (value (signal s) <= 0)%Z) (cs_strategies r) →
           cs_signal r ≠ LONG ∧ cs_signal r ≠ STRONG_LONG)
          ∧ (Forall (λ s, (0 <= value (signal s))%Z) (cs_strategies r) →
             cs_signal r ≠ SHORT ∧ cs_signal r ≠ STRONG_SHORT)).
Proof.
  intros Hr Hc Hw.
  destruct (analyze_ok (SignalEngine_init w) symbol candles now Hr Hc)
    as [r Hres].
  exists r. split; [done|].
  apply analyze_Ok_inv in Hres
    as (price & s1 & s2 & s3 & s4 & _ & E1 & E2 & E3 & E4 & ->).
  assert (Hall : Forall (λ s, 0 <= confidence s) [s1; s2; s3; s4]).
  { pose proof (confidence_graded_bounds _
                  (strategy_rsi_mean_reversion_graded _ _ E1)) as B1.
    pose proof (confidence_graded_bounds _
                  (strategy_golden_cross_graded _ _ E2)) as B2.
    pose proof (confidence_graded_bounds _
                  (strategy_macd_graded _ _ E3)) as B3.
    pose proof (confidence_graded_bounds _
                  (strategy_volume_breakout_graded _ _ E4)) as B4.
    repeat (apply Forall_cons_2; [lra|]). apply Forall_nil_2. }
  destruct (accumulate_signal_sign (SignalEngine_init w) [s1; s2; s3; s4]
              (mk_totals 0 0 0) (SignalEngine_init_nonneg w Hw) Hall)
    as [Hneg Hpos].
  rewrite combine_strategies.
  assert (Hsig : cs_signal (combine (SignalEngine_init w) symbol price
                              [s1; s2; s3; s4] now)
                 = discretize (averages (foldl
                     (accumulate (SignalEngine_init w))
                     (mk_totals 0 0 0) [s1; s2; s3; s4])).1).
  { unfold combine. now destruct (averages _). }
  rewrite Hsig. clear Hsig.
  set (t := foldl (accumulate (SignalEngine_init w)) (mk_totals 0 0 0)
              [s1; s2; s3; s4]) in *.
  unfold averages.
  split; intros Hv.
  - assert (Hs : weighted_signal t <= 0) by (apply Hneg; simpl; (done || lra)).
    destruct (decide (total_weight t > 0)) as [Ht|Ht]; cbn [fst].
    + assert (Ha : weighted_signal t / total_weight t <= 0).
      { apply Rmult_le_reg_r with (total_weight t); [lra|].
        unfold Rdiv. rewrite Rmult_assoc, Rinv_l by lra. lra. }
      unfold discretize. repeat case_decide; split; (done || lra).
    + rewrite discretize_0. done.
  - assert (Hs : 0 <= weighted_signal t) by (apply Hpos; simpl; (done || lra)).
    destruct (decide (total_weight t > 0)) as [Ht|Ht]; cbn [fst].
    + assert (Ha : 0 <= weighted_signal t / total_weight t).
      { apply Rmult_le_reg_r with (total_weight t); [lra|].
        unfold Rdiv. rewrite Rmult_assoc, Rinv_l by lra. lra. }
      unfold discretize. repeat case_decide; split; (done || lra).
    + rewrite discretize_0. done.
Qed.

End weights.

Lemma analyze_direction_needs_a_vote_witness :
  (rows one_bar ≠ [] ∧ (6 <= ncols one_bar)%nat ∧ nonneg_table None)
  ∧ returns (@analyze plain_builtins (SignalEngine_init None) "XXBTZUSD"
               one_bar 0)
      (λ r, (Forall (λ s, (value (signal s) <= 0)%Z) (cs_strategies r) →
             cs_signal r ≠ LONG ∧ cs_signal r ≠ STRONG_LONG)
            ∧ (Forall (λ s, (0 <= value (signal s))%Z) (cs_strategies r) →
               cs_signal r ≠ SHORT ∧ cs_signal r ≠ STRONG_SHORT)).
Proof.
  assert (Hw : nonneg_table None) by (intros m; discriminate).
  split; [repeat split; [exact one_bar_rows | exact one_bar_ncols | exact Hw]|].
  exact (@analyze_direction_needs_a_vote plain_builtins None "XXBTZUSD"
           one_bar 0 one_bar_rows one_bar_ncols Hw).
Defined.
